(** * Terra-data: tile planning, fetching, compositing, orchestration, encoding

    A shallow embedding of the Python scripts of the Terra-data repository
    and the properties of its specification that concern them.

    Conventions of the embedding.
    - Python [int] is [Z]; [range(a, b)] is [range a b]; a slice [l[:n]]
      with [n >= 0] is [take].
    - Python [str] is [string]: the characters are code points below 256,
      so [len] is [String.length] and [<=] on [str] is [String.le].
    - A function that can raise returns a [result]; a function with effects
      threads the part of the outside world it touches and records the calls
      it makes (network requests, directory listings, sub-processes).
    - Geographic coordinates are [float] in the source and exact rationals
      here; [int(q)] truncates towards zero. *)

From Stdlib Require Import ZArith QArith Lia DecimalString Ascii.
From Stdlib Require DecimalPos DecimalZ.
From stdpp Require Import base decidable option list list_numbers sorting
  strings gmap sets.

Local Open Scope string_scope.
Local Open Scope list_scope.
Local Open Scope Z_scope.

(** ** Python primitives *)

Module Py.

Inductive exn :=
| ValueError
| TypeError
| ZeroDivisionError
| FileNotFoundError
| FileExistsError
| CalledProcessError.

Inductive result (A : Type) :=
| Ok (a : A)
| Raise (e : exn).
Arguments Ok {A} a.
Arguments Raise {A} e.

Definition bind {A B} (m : result A) (k : A → result B) : result B :=
  match m with
  | Ok a => k a
  | Raise e => Raise e
  end.

(** [range(a, b)] *)
Definition range (a b : Z) : list Z := seqZ a (b - a).

(** [str(n)] for an [int] *)
Definition str (n : Z) : string := NilZero.string_of_int (Z.to_int n).

(** [int(q)] for a finite number: truncation towards zero *)
Definition int (q : Q) : Z := Z.quot (Qnum q) (Z.pos (Qden q)).

(** [s.endswith(suffix)] *)
Definition endswith (s suffix : string) : bool :=
  let n := String.length s in
  let k := String.length suffix in
  (k <=? n)%nat && String.eqb (String.substring (n - k) k s) suffix.

(** [os.path.join(a, b)] on POSIX paths *)
Definition path_join (a b : string) : string :=
  if String.prefix "/" b then b
  else if String.eqb a "" then b
  else if endswith a "/" then a +:+ b
  else a +:+ "/" +:+ b.

End Py.

Abbreviation Ok := Py.Ok.
Abbreviation Raise := Py.Raise.

(** ** The outside world

    The file system is a finite map from the paths the scripts use to what
    is found there; every call that leaves the process is recorded, oldest
    first.  What the network and the sub-processes answer is a parameter of
    the functions that call them. *)

Module Sys.

Inductive node :=
| File
| Dir (entries : list (string * node)).

Inductive event :=
| EvExists (path : string)
| EvListdir (path : string)
| EvGet (url : string)
| EvWrite (path : string)
| EvRemove (path : string)
| EvRun (cmd : list string)
| EvPrint (msg : string).

Record world := World { fs : gmap string node; trace : list event }.

Definition log (e : event) (w : world) : world :=
  World (fs w) (trace w ++ [e]).

(** [os.path.exists(path)] *)
Definition path_exists (path : string) (w : world) : bool * world :=
  (bool_decide (is_Some (fs w !! path)), log (EvExists path) w).

(** [os.listdir(path)] of an existing directory *)
Definition listdir (path : string) (w : world) : list string * world :=
  (match fs w !! path with
   | Some (Dir entries) => entries.*1
   | _ => []
   end, log (EvListdir path) w).

(** [os.remove(path)] of an existing file *)
Definition remove (path : string) (w : world) : world :=
  log (EvRemove path) (World (delete path (fs w)) (trace w)).

(** [os.makedirs(path, exist_ok=True)] *)
Definition makedirs (path : string) (w : world) : Py.result unit * world :=
  match fs w !! path with
  | Some (Dir _) => (Ok (), w)
  | Some File => (Raise Py.FileExistsError, w)
  | None => (Ok (), World (<[path := Dir []]> (fs w)) (trace w))
  end.

Inductive http_outcome :=
| Response (status_code : Z) (content : string)
| RequestFailed.

Inductive proc_outcome :=
| Exited (returncode : Z)
| NotFound.

Definition is_get (e : event) : bool :=
  match e with EvGet _ => true | _ => false end.

Definition is_run (e : event) : bool :=
  match e with EvRun _ => true | _ => false end.

Definition is_listdir (e : event) : bool :=
  match e with EvListdir _ => true | _ => false end.

Definition is_remove (e : event) : bool :=
  match e with EvRemove _ => true | _ => false end.

Section Effects.
Variable requests_get : string → world → http_outcome.
Variable open_wb : string → world → bool.
Variable subprocess_run : list string → world → proc_outcome * gmap string node.

(** [requests.get(url, timeout=30)] *)
Definition http_get (url : string) (w : world) : http_outcome * world :=
  (requests_get url w, log (EvGet url) w).

(** [with open(path, 'wb') as f: f.write(content)]; [false] when the
    file cannot be opened for writing (an exception in the source). *)
Definition write_file (path : string) (w : world) : bool * world :=
  if open_wb path w
  then (true, log (EvWrite path) (World (<[path := File]> (fs w)) (trace w)))
  else (false, w).

(** [subprocess.run(cmd, ...)]: the outcome and the files left behind. *)
Definition run (cmd : list string) (w : world) : proc_outcome * world :=
  let '(out, fs') := subprocess_run cmd w in
  (out, log (EvRun cmd) (World fs' (trace w))).
End Effects.

End Sys.

(** ** Tile grid planner *)

Module Planner.

(** A tile coordinate [(zoom, x, y)]. *)
Definition tile : Type := Z * Z * Z.

(** The doubly nested loop [for x in xs: for y in ys: out.append(f x y)]. *)
Definition grid {A} (f : Z → Z → A) (xs ys : list Z) : list A :=
  x ← xs; f x <$> ys.

(** complete-world-map-generator.py, [calculate_world_tiles].  With a
    negative [zoom_level] the power is a [float] and [range] raises. *)
Definition calculate_world_tiles (zoom_level : Z) : Py.result (list tile) :=
  if zoom_level <? 0 then Raise Py.TypeError
  else
    let max_tile := 2 ^ zoom_level in
    Ok (grid (λ x y, (zoom_level, x, y))
             (Py.range 0 max_tile) (Py.range 0 max_tile)).

(** earthdata-image-exporter.py, [get_tiles_for_bbox].  [bbox] is
    [[min_lon, min_lat, max_lon, max_lat]]; [zoom_level] is the value
    of [calculate_optimal_zoom], an [int] from 0 to 5. *)
Record bbox4 := Bbox4 { b0 : Q; b1 : Q; b2 : Q; b3 : Q }.

Definition get_tiles_for_bbox (bbox : bbox4) (zoom_level : Z) : list (Z * Z) :=
  let max_tile := 2 ^ zoom_level in
  let scale := inject_Z max_tile in
  let x_min := Z.max 0 (Py.int ((b0 bbox + 180) / 360 * scale)%Q) in
  let x_max := Z.min (max_tile - 1) (Py.int ((b2 bbox + 180) / 360 * scale)%Q) in
  let y_min := Z.max 0 (Py.int ((90 - b3 bbox) / 180 * scale)%Q) in
  let y_max := Z.min (max_tile - 1) (Py.int ((90 - b1 bbox) / 180 * scale)%Q) in
  grid (λ x y, (x, y)) (Py.range x_min (x_max + 1)) (Py.range y_min (y_max + 1)).

(** ingest_worker.py, [_get_tile_coordinates].  The inner [deg2num]
    goes through [math.tan] and [math.asinh]; it is a parameter of the
    embedding, and what is proved holds for every such function. *)
Record bbox_nsew := BboxNSEW { north : Q; south : Q; east : Q; west : Q }.

Section TileCoordinates.
Variable deg2num : Q → Q → Z → Z * Z.

Definition _get_tile_coordinates (bbox : bbox_nsew) (zoom : Z) : list (Z * Z) :=
  let '(min_x, max_y) := deg2num (north bbox) (west bbox) zoom in
  let '(max_x, min_y) := deg2num (south bbox) (east bbox) zoom in
  let coordinates :=
    grid (λ x y, (x, y)) (Py.range min_x (max_x + 1)) (Py.range min_y (max_y + 1)) in
  take 25 coordinates.
End TileCoordinates.

End Planner.


(** ** Tile fetcher *)

Module Fetcher.
Import Sys.

Section Fetch.
Variable requests_get : string → world → http_outcome.
Variable open_wb : string → world → bool.

(** *** complete-world-map-generator.py, class [TerraWorldMapGenerator] *)

Definition base_url : string := "https://gibs.earthdata.nasa.gov/wmts/epsg4326/best".
Definition default_layer : string := "MODIS_Terra_CorrectedReflectance_TrueColor".
Definition default_resolution : string := "250m".

(** [value or default] on an optional string: [None] and [""] are falsy. *)
Definition or_default (value : option string) (default : string) : string :=
  match value with
  | Some v => if String.eqb v "" then default else v
  | None => default
  end.

Definition get_terra_tile_url (date : string) (z x y : Z)
    (layer resolution : option string) : string :=
  let layer := or_default layer default_layer in
  let resolution := or_default resolution default_resolution in
  base_url +:+ "/" +:+ layer +:+ "/default/" +:+ date +:+ "/" +:+ resolution
    +:+ "/" +:+ Py.str z +:+ "/" +:+ Py.str y +:+ "/" +:+ Py.str x +:+ ".jpg".

Definition tile_filename (z x y : Z) : string :=
  "tile_" +:+ Py.str z +:+ "_" +:+ Py.str x +:+ "_" +:+ Py.str y +:+ ".jpg".

(** [download_tile]: every exception inside is caught and turned into
    [(None, False)]. *)
Definition download_tile (date : string) (z x y : Z) (output_dir : string)
    (layer : option string) (w : world) : (option string * bool) * world :=
  let url := get_terra_tile_url date z x y layer None in
  let tile_path := Py.path_join output_dir (tile_filename z x y) in
  let '(present, w1) := path_exists tile_path w in
  if present then ((Some tile_path, true), w1)
  else
    let '(response, w2) := http_get requests_get url w1 in
    match response with
    | Response status_code _ =>
        if status_code =? 200 then
          let '(written, w3) := write_file open_wb tile_path w2 in
          if written then ((Some tile_path, true), w3) else ((None, false), w3)
        else ((None, false), w2)
    | RequestFailed => ((None, false), w2)
    end.

(** *** direct-gibs-downloader.py, class [DirectGIBSDownloader] *)

Record layer_info := LayerInfo { id : string; resolution : string; format : string }.

Definition layers : gmap string layer_info :=
  list_to_map [
    ("terra_true_color",
      LayerInfo "MODIS_Terra_CorrectedReflectance_TrueColor" "250m" "jpg");
    ("terra_false_color",
      LayerInfo "MODIS_Terra_CorrectedReflectance_Bands367" "250m" "jpg");
    ("terra_bands721",
      LayerInfo "MODIS_Terra_CorrectedReflectance_Bands721" "250m" "jpg");
    ("aqua_true_color",
      LayerInfo "MODIS_Aqua_CorrectedReflectance_TrueColor" "250m" "jpg");
    ("viirs_true_color",
      LayerInfo "VIIRS_SNPP_CorrectedReflectance_TrueColor" "250m" "jpg")
  ].

Definition gibs_tile_url (info : layer_info) (date : string) (z x y : Z) : string :=
  base_url +:+ "/" +:+ id info +:+ "/default/" +:+ date +:+ "/" +:+ resolution info
    +:+ "/" +:+ Py.str z +:+ "/" +:+ Py.str y +:+ "/" +:+ Py.str x
    +:+ "." +:+ format info.

Definition download_single_tile (layer_key date : string) (z x y : Z)
    (output_path : string) (w : world) : Py.result bool * world :=
  match layers !! layer_key with
  | None => (Raise Py.ValueError, w)
  | Some info =>
      let url := gibs_tile_url info date z x y in
      let '(response, w1) := http_get requests_get url w in
      match response with
      | Response status_code _ =>
          if status_code =? 200 then
            let '(written, w2) := write_file open_wb output_path w1 in
            (Ok written, w2)
          else (Ok false, w1)
      | RequestFailed => (Ok false, w1)
      end
  end.

Definition grid_tile_filename (layer_key date : string) (zoom_level x y : Z)
    (info : layer_info) : string :=
  layer_key +:+ "_" +:+ date +:+ "_z" +:+ Py.str zoom_level +:+ "_x" +:+ Py.str x
    +:+ "_y" +:+ Py.str y +:+ "." +:+ format info.

(** The body of the two loops of [download_region_grid], over the
    cells still to visit, with the counters so far. *)
Fixpoint region_loop (layer_key date : string) (zoom_level : Z) (output_dir : string)
    (info : layer_info) (cells : list (Z * Z)) (successful failed : Z) (w : world)
    : Py.result (Z * Z) * world :=
  match cells with
  | [] => (Ok (successful, failed), w)
  | (x, y) :: rest =>
      let tile_path :=
        Py.path_join output_dir (grid_tile_filename layer_key date zoom_level x y info) in
      match download_single_tile layer_key date zoom_level x y tile_path w with
      | (Ok true, w1) =>
          region_loop layer_key date zoom_level output_dir info rest
            (successful + 1) failed w1
      | (Ok false, w1) =>
          region_loop layer_key date zoom_level output_dir info rest
            successful (failed + 1) w1
      | (Raise e, w1) => (Raise e, w1)
      end
  end.

Definition download_region_grid (layer_key date : string)
    (zoom_level x_min x_max y_min y_max : Z) (output_dir : string) (w : world)
    : Py.result (Z * Z) * world :=
  match layers !! layer_key with
  | None => (Raise Py.ValueError, w)
  | Some info =>
      match makedirs output_dir w with
      | (Ok _, w0) =>
          region_loop layer_key date zoom_level output_dir info
            (Planner.grid (λ x y, (x, y))
               (Py.range x_min (x_max + 1)) (Py.range y_min (y_max + 1)))
            0 0 w0
      | (Raise e, w0) => (Raise e, w0)
      end
  end.

(** [download_global_coverage]; as in [calculate_world_tiles], a
    negative [zoom_level] makes the bounds [float] and [range] raises. *)
Definition download_global_coverage (layer_key date : string) (zoom_level : Z)
    (output_dir : string) (w : world) : Py.result (Z * Z) * world :=
  let max_tile := 2 ^ zoom_level in
  if (zoom_level <? 0) && bool_decide (is_Some (layers !! layer_key))
  then
    match makedirs output_dir w with
    | (Ok _, w0) => (Raise Py.TypeError, w0)
    | (Raise e, w0) => (Raise e, w0)
    end
  else download_region_grid layer_key date zoom_level
         0 (max_tile - 1) 0 (max_tile - 1) output_dir w.
End Fetch.

End Fetcher.

(** ** Mosaic compositor *)

Module Compositor.

Definition colour : Type := Z * Z * Z.

(** A raster image: [pixels] holds the rows one after the other. *)
Record image := Image { width : Z; height : Z; pixels : list colour }.

(** [Image.new('RGB', (w, h), c)] *)
Definition new (w h : Z) (c : colour) : image :=
  Image w h (replicate (Z.to_nat (w * h)) c).

Definition getpixel (im : image) (x y : Z) : option colour :=
  if (0 <=? x) && (x <? width im) && (0 <=? y) && (y <? height im)
  then pixels im !! Z.to_nat (y * width im + x)
  else None.

(** [canvas.paste(tile, (ox, oy))]: the part of [tile] that falls on the
    canvas replaces what was there. *)
Definition paste (canvas tile : image) (ox oy : Z) : image :=
  Image (width canvas) (height canvas)
    (imap (λ i old,
             let x := Z.of_nat i `mod` width canvas in
             let y := Z.of_nat i `div` width canvas in
             default old (getpixel tile (x - ox) (y - oy)))
          (pixels canvas)).

Definition tile_size : Z := 256.

(** [min(...)] and [max(...)] of a non-empty sequence *)
Definition py_min (l : list Z) : Z :=
  match l with
  | [] => 0
  | x :: rest => foldl Z.min x rest
  end.

Definition py_max (l : list Z) : Z :=
  match l with
  | [] => 0
  | x :: rest => foldl Z.max x rest
  end.

Section Stitch.
(** [Image.open], on a path or on the bytes of a tile: [None] when the
    source raises. *)
Variable Image_open : string → option image.
(** Resampling to a different size (Pillow). *)
Variable resample : image → Z → Z → image.

(** The decoded tile, if there is one, is no larger than [tile_size]. *)
Definition fits_tile (source : string) : Prop :=
  ∀ img, Image_open source = Some img →
         width img ≤ tile_size ∧ height img ≤ tile_size.

(** [im.resize((w, h), ...)]: Pillow returns a copy when the size is
    the image's own. *)
Definition resize (im : image) (w h : Z) : image :=
  if (width im =? w) && (height im =? h) then im else resample im w h.

(** *** complete-world-map-generator.py, [stitch_world_map]

    One turn of the loop over [(z, x, y, tile_path)], on the canvas and
    the [tiles_placed] counter. *)
Definition place_world_tile (acc : image * Z) (t : Z * Z * Z * string) : image * Z :=
  let '(z, x, y, tile_path) := t in
  match Image_open tile_path with
  | Some tile_img =>
      (paste acc.1 tile_img (x * tile_size) (y * tile_size), acc.2 + 1)
  | None => acc
  end.

(** The image saved at [output_path]; [None] when the function returns
    [False].  [add_world_map_overlay] draws on a converted copy that it
    binds to its own local name, so the saved image is the canvas as the
    loop leaves it; the display variant is [resize] of the same canvas. *)
Definition stitch_world_map (successful_tiles : list (Z * Z * Z * string))
    (zoom_level : Z) : option image :=
  match successful_tiles with
  | [] => None
  | _ =>
      let max_tile := 2 ^ zoom_level in
      let world_width := max_tile * tile_size in
      let world_height := max_tile * tile_size in
      let world_map := new world_width world_height (0, 0, 50) in
      Some (foldl place_world_tile (world_map, 0) successful_tiles).1
  end.

(** *** ingest_worker.py, [_compose_frame] *)
Definition place_frame_tile (min_x min_y : Z) (frame : image)
    (t : Z * Z * string) : image :=
  let '(x, y, tile_data) := t in
  match Image_open tile_data with
  | Some tile_img =>
      paste frame tile_img ((x - min_x) * tile_size) ((y - min_y) * tile_size)
  | None => frame
  end.

(** The frame that is saved; [None] when there is no tile. *)
Definition _compose_frame (tiles : list (Z * Z * string)) : option image :=
  match tiles with
  | [] => None
  | _ =>
      let min_x := py_min (tiles.*1.*1) in
      let max_x := py_max (tiles.*1.*1) in
      let min_y := py_min (tiles.*1.*2) in
      let max_y := py_max (tiles.*1.*2) in
      let width := (max_x - min_x + 1) * tile_size in
      let height := (max_y - min_y + 1) * tile_size in
      let frame := new width height (0, 0, 0) in
      Some (foldl (place_frame_tile min_x min_y) frame tiles)
  end.

(** *** earthdata-image-exporter.py, [stitch_tiles]

    The loop over [enumerate(tile_images)], from index [i] on. *)
Fixpoint stitch_loop (width height cols : Z) (i : Z)
    (tile_images : list (Z * Z * image)) (result : image) : image :=
  match tile_images with
  | [] => result
  | (tile_x, tile_y, tile_img) :: rest =>
      let x := (i `mod` cols) * tile_size in
      let y := (i `div` cols) * tile_size in
      let result :=
        if (x <? width) && (y <? height) then paste result tile_img x y else result in
      stitch_loop width height cols (i + 1) rest result
  end.

(** [Image.new] refuses a negative size. *)
Definition stitch_tiles (tile_images : list (Z * Z * image)) (width height : Z)
    : Py.result image :=
  if (width <? 0) || (height <? 0) then Raise Py.ValueError
  else
    let result := new width height (0, 0, 50) in
    let cols := width `div` tile_size + 1 in
    Ok (resize (stitch_loop width height cols 0 tile_images result) width height).
End Stitch.

End Compositor.

(** ** Frame and date orchestrator: batch-world-map-generator.py *)

Module Orchestrator.
Import Sys.

(** *** [datetime.strptime(s, '%Y-%m-%d')]

    After CPython's [_strptime]: the format becomes the regular expression
    [(\d\d\d\d)-(1[0-2]|0[1-9]|[1-9])-(3[0-1]|[1-2]\d|0[1-9]|[1-9]| [1-9])],
    matched at the start of the string with the alternatives tried in
    order; text left over, a year 0 or a day the month does not have is a
    [ValueError]. *)

Record date := Date { year : Z; month : Z; day : Z }.

Definition digit (c : ascii) : option Z :=
  let n := Z.of_N (Ascii.N_of_ascii c) in
  if (48 <=? n) && (n <=? 57) then Some (n - 48) else None.

Definition match_Y (s : string) : option (Z * string) :=
  match s with
  | String a (String b (String c (String d rest))) =>
      a ← digit a; b ← digit b; c ← digit c; d ← digit d;
      Some (1000 * a + 100 * b + 10 * c + d, rest)
  | _ => None
  end.

Definition match_dash (s : string) : option string :=
  match s with
  | String "-" rest => Some rest
  | _ => None
  end.

(** Two characters [a b] with [a] and [b] digits in the given ranges. *)
Definition two (alo ahi blo bhi : Z) (s : string) : option (Z * string) :=
  match s with
  | String a (String b rest) =>
      a ← digit a; b ← digit b;
      if (alo <=? a) && (a <=? ahi) && (blo <=? b) && (b <=? bhi)
      then Some (10 * a + b, rest) else None
  | _ => None
  end.

Definition one (lo hi : Z) (s : string) : option (Z * string) :=
  match s with
  | String a rest =>
      a ← digit a;
      if (lo <=? a) && (a <=? hi) then Some (a, rest) else None
  | _ => None
  end.

Definition orelse {A} (x y : option A) : option A :=
  match x with Some _ => x | None => y end.

Definition match_m (s : string) : option (Z * string) :=
  orelse (two 1 1 0 2 s) (orelse (two 0 0 1 9 s) (one 1 9 s)).

Definition match_d (s : string) : option (Z * string) :=
  orelse (two 3 3 0 1 s)
    (orelse (two 1 2 0 9 s)
       (orelse (two 0 0 1 9 s)
          (orelse (one 1 9 s)
             match s with
             | String " " rest => one 1 9 rest
             | _ => None
             end))).

Definition is_leap (y : Z) : bool :=
  (y `mod` 4 =? 0) && (negb (y `mod` 100 =? 0) || (y `mod` 400 =? 0)).

Definition days_in_month (y m : Z) : Z :=
  if m =? 2 then (if is_leap y then 29 else 28)
  else if (m =? 4) || (m =? 6) || (m =? 9) || (m =? 11) then 30
  else 31.

Definition strptime_Ymd (s : string) : option date :=
  '(y, s1) ← match_Y s;
  s2 ← match_dash s1;
  '(m, s3) ← match_m s2;
  s4 ← match_dash s3;
  '(d, s5) ← match_d s4;
  if String.eqb s5 "" && (1 <=? y) && (d <=? days_in_month y m)
  then Some (Date y m d) else None.

(** *** [find_downloaded_dates] *)

(** [s.split(sep)] for a one-character separator *)
Fixpoint split (sep : ascii) (s : string) : list string :=
  match s with
  | EmptyString => [EmptyString]
  | String c rest =>
      if Ascii.eqb c sep then EmptyString :: split sep rest
      else match split sep rest with
           | part :: parts => String c part :: parts
           | [] => [String c EmptyString]
           end
  end.

(** [s.count(c)] for a one-character string *)
Fixpoint count (c : ascii) (s : string) : Z :=
  match s with
  | EmptyString => 0
  | String c' rest => (if Ascii.eqb c' c then 1 else 0) + count c rest
  end.

(** The file names [os.walk] yields below a directory, top down. *)
Fixpoint walk_files (n : node) : list string :=
  match n with
  | File => []
  | Dir entries =>
      omap (λ e, match e.2 with File => Some e.1 | Dir _ => None end) entries
      ++ flat_map (λ e, walk_files e.2) entries
  end.

Definition scan_part (dates : gset string) (part : string) : gset string :=
  if (Z.of_nat (String.length part) =? 10) && (count "-" part =? 2) then
    match strptime_Ymd part with
    | Some _ => {[part]} ∪ dates
    | None => dates
    end
  else dates.

Definition scan_file (dates : gset string) (file : string) : gset string :=
  if Py.endswith file ".jpg" || Py.endswith file ".jpeg"
  then foldl scan_part dates (split "_" file)
  else dates.

(** [sorted] on strings *)
Definition sorted (l : list string) : list string := merge_sort String.le l.

Definition find_downloaded_dates (terra_downloads_dir : string) (w : world)
    : list string * world :=
  let '(present, w1) := path_exists terra_downloads_dir w in
  if negb present then ([], w1)
  else
    let files :=
      match fs w1 !! terra_downloads_dir with
      | Some n => walk_files n
      | None => []
      end in
    let dates := foldl scan_file ∅ files in
    (sorted (elements dates), w1).

(** *** [generate_world_map_for_date] and [main] *)

Record args := Args {
  downloads : string;
  output : string;
  zoom : Z;
  limit : option Z;
  start_date : option string;
  end_date : option string
}.

(** [l[:n]] *)
Definition slice_to {A} (n : Z) (l : list A) : list A :=
  if n <? 0 then take (length l - Z.to_nat (- n)) l else take (Z.to_nat n) l.

(** [successful / n * 100] *)
Definition success_rate (successful n : Z) : Py.result Q :=
  if n =? 0 then Raise Py.ZeroDivisionError
  else Ok (inject_Z successful / inject_Z n * 100)%Q.

Definition expected_path (a : args) (date : string) : string :=
  Py.path_join (output a)
    ("terra_complete_world_map_" +:+ date +:+ "_z" +:+ Py.str (zoom a) +:+ ".jpg").

Section Batch.
Variable subprocess_run : list string → world → proc_outcome * gmap string node.
(** whether the sub-process is still running when the 300 seconds of
    [timeout=300] are over *)
Variable expires : list string → world → bool.
(** the interpreter, and the directory of the script *)
Variable sys_executable : string.
Variable script_dir : string.

(** Every exception of [subprocess.run], the timeout among them, is
    caught and gives [False]. *)
Definition generate_world_map_for_date (date output_dir : string) (zoom_level : Z)
    (w : world) : bool * world :=
  let script_path := Py.path_join script_dir "complete-world-map-generator.py" in
  let cmd := [sys_executable; script_path; "--date"; date;
              "--output"; output_dir; "--zoom"; Py.str zoom_level] in
  let '(out, w1) := run subprocess_run cmd w in
  if expires cmd w then (false, w1)
  else
    match out with
    | Exited returncode => (returncode =? 0, w1)
    | NotFound => (false, w1)
    end.

(** The counters [successful] and [failed], and the world. *)
Record state := State { successful : Z; failed : Z; now : world }.

(** One turn of the loop over [dates_to_process]. *)
Definition process_date (a : args) (st : state) (date : string) : state :=
  let '(present, w1) := path_exists (expected_path a date) (now st) in
  if present then State (successful st + 1) (failed st) w1
  else
    let '(generated, w2) := generate_world_map_for_date date (output a) (zoom a) w1 in
    if generated then State (successful st + 1) (failed st) w2
    else State (successful st) (failed st + 1) w2.

Definition truthy (s : option string) : option string :=
  match s with
  | Some v => if String.eqb v "" then None else Some v
  | None => None
  end.

(** The dates left by the two filters and the limit. *)
Definition select_dates (a : args) (available_dates : list string) : list string :=
  let dates_to_process := available_dates in
  let dates_to_process :=
    match truthy (start_date a) with
    | Some start => filter (λ d, String.le start d) dates_to_process
    | None => dates_to_process
    end in
  let dates_to_process :=
    match truthy (end_date a) with
    | Some stop => filter (λ d, String.le d stop) dates_to_process
    | None => dates_to_process
    end in
  match limit a with
  | Some n => if n =? 0 then dates_to_process else slice_to n dates_to_process
  | None => dates_to_process
  end.

(** [main]: the exit status, or the exception that ends the script. *)
Definition main (a : args) (w : world) : Py.result Z * world :=
  let '(available_dates, w1) := find_downloaded_dates (downloads a) w in
  match available_dates with
  | [] => (Ok 1, w1)
  | _ =>
      let dates_to_process := select_dates a available_dates in
      match makedirs (output a) w1 with
      | (Raise e, w2) => (Raise e, w2)
      | (Ok _, w2) =>
          let st := foldl (process_date a) (State 0 0 w2) dates_to_process in
          match success_rate (successful st) (Z.of_nat (length dates_to_process)) with
          | Raise e => (Raise e, now st)
          | Ok _ => (Ok (if failed st =? 0 then 0 else 1), now st)
          end
      end
  end.
End Batch.

End Orchestrator.

(** ** Encoder adapter: animation-video-generator.py

    Of the [print] calls those that report an error are kept. *)

Module Encoder.
Import Sys.

Definition frame_files_of (names : list string) : list string :=
  Orchestrator.sorted (filter (λ f, Py.endswith f ".jpg" = true) names).

Definition quality_settings (quality : string) : option (list string) :=
  if String.eqb quality "low" then Some ["-crf"; "28"]
  else if String.eqb quality "medium" then Some ["-crf"; "23"]
  else if String.eqb quality "high" then Some ["-crf"; "18"]
  else if String.eqb quality "lossless" then Some ["-crf"; "0"]
  else None.

Section Encode.
Variable subprocess_run : list string → world → proc_outcome * gmap string node.

(** [subprocess.run(cmd, capture_output=True, check=True)]: a missing
    executable raises [FileNotFoundError], a non-zero exit status
    [CalledProcessError].  No timeout is passed. *)
Definition run_checked (cmd : list string) (w : world) : Py.result unit * world :=
  let '(out, w1) := run subprocess_run cmd w in
  match out with
  | Exited returncode =>
      if returncode =? 0 then (Ok (), w1) else (Raise Py.CalledProcessError, w1)
  | NotFound => (Raise Py.FileNotFoundError, w1)
  end.

(** [fps] is the text of [str(fps)]. *)
Definition create_video_from_frames (frames_dir output_path fps quality : string)
    (w : world) : Py.result bool * world :=
  let '(present, w1) := path_exists frames_dir w in
  if negb present then
    (Ok false, log (EvPrint ("Error: Frames directory does not exist: " +:+ frames_dir)) w1)
  else
    match run_checked ["ffmpeg"; "-version"] w1 with
    | (Raise Py.CalledProcessError, w2) | (Raise Py.FileNotFoundError, w2) =>
        (Ok false,
         log (EvPrint "Please install ffmpeg to create videos")
           (log (EvPrint "Error: ffmpeg is not installed or not in PATH") w2))
    | (Raise e, w2) => (Raise e, w2)
    | (Ok _, w2) =>
        let '(names, w3) := listdir frames_dir w2 in
        match frame_files_of names with
        | [] =>
            (Ok false, log (EvPrint ("Error: No frame files found in " +:+ frames_dir)) w3)
        | _ =>
            let input_pattern := Py.path_join frames_dir "frame_%03d_*.jpg" in
            let cmd :=
              (["ffmpeg"; "-y"; "-framerate"; fps; "-pattern_type"; "glob";
                "-i"; input_pattern; "-c:v"; "libx264"; "-pix_fmt"; "yuv420p"]
               ++ default ["-crf"; "23"] (quality_settings quality)
               ++ ["-movflags"; "+faststart"; output_path])%list in
            match run_checked cmd w3 with
            | (Ok _, w4) => (Ok true, w4)
            | (Raise Py.CalledProcessError, w4) =>
                (Ok false, log (EvPrint "ffmpeg error") w4)
            | (Raise e, w4) => (Raise e, w4)
            end
        end
    end.

Definition create_gif_from_frames (frames_dir output_path fps : string) (width : Z)
    (w : world) : Py.result bool * world :=
  let '(present, w1) := path_exists frames_dir w in
  if negb present then
    (Ok false, log (EvPrint ("Error: Frames directory does not exist: " +:+ frames_dir)) w1)
  else
    let '(names, w2) := listdir frames_dir w1 in
    match frame_files_of names with
    | [] =>
        (Ok false, log (EvPrint ("Error: No frame files found in " +:+ frames_dir)) w2)
    | _ =>
        let input_pattern := Py.path_join frames_dir "frame_%03d_*.jpg" in
        let cmd :=
          ["ffmpeg"; "-y"; "-framerate"; fps; "-pattern_type"; "glob";
           "-i"; input_pattern;
           "-vf"; "scale=" +:+ Py.str width
                    +:+ ":-1:flags=lanczos,palettegen=reserve_transparent=0";
           "-y"; "palette.png"] in
        match run_checked cmd w2 with
        | (Raise Py.CalledProcessError, w3) =>
            (Ok false, log (EvPrint "ffmpeg error") w3)
        | (Raise e, w3) => (Raise e, w3)
        | (Ok _, w3) =>
            let cmd2 :=
              ["ffmpeg"; "-y"; "-framerate"; fps; "-pattern_type"; "glob";
               "-i"; input_pattern; "-i"; "palette.png";
               "-filter_complex"; "scale=" +:+ Py.str width
                    +:+ ":-1:flags=lanczos[x];[x][1:v]paletteuse";
               output_path] in
            match run_checked cmd2 w3 with
            | (Raise Py.CalledProcessError, w4) =>
                (Ok false, log (EvPrint "ffmpeg error") w4)
            | (Raise e, w4) => (Raise e, w4)
            | (Ok _, w4) =>
                let '(palette, w5) := path_exists "palette.png" w4 in
                let w6 := if palette then remove "palette.png" w5 else w5 in
                (Ok true, w6)
            end
        end
    end.
End Encode.

End Encoder.
(** ** Concrete worlds and inputs *)

Module Scenario.
Import Sys.

(** A tile directory with one tile of an earlier run. *)
Definition cached_world : world :=
  World {[ "tiles/tile_2_1_3.jpg" := File; "out/t.jpg" := File ]} [].

(** A downloads directory with images of two days, and the world map of
    the first day already made. *)
Definition batch_world : world :=
  World {[ "downloads" :=
             Dir [("terra_2023-01-01_z2.jpg", File);
                  ("sub", Dir [("MODIS_2023-01-02_x.jpeg", File);
                               ("notes.txt", File)])];
           "maps" := Dir [];
           "maps/terra_complete_world_map_2023-01-01_z2.jpg" := File ]} [].

Definition batch_args : Orchestrator.args :=
  Orchestrator.Args "downloads" "maps" 2 None None None.

(** [--start-date 2024-01-01]: later than every downloaded day. *)
Definition late_args : Orchestrator.args :=
  Orchestrator.Args "downloads" "maps" 2 None (Some "2024-01-01") None.

(** No executable is found. *)
Definition absent : list string → world → proc_outcome * gmap string node :=
  λ _ w, (NotFound, fs w).

Definition on_time : list string → world → bool := λ _ _, false.

(** [ffmpeg] writes the palette, then fails on the second call. *)
Definition ffmpeg_fails_on_gif : list string → world → proc_outcome * gmap string node :=
  λ cmd w,
    match last cmd with
    | Some "palette.png" => (Exited 0, <["palette.png" := File]> (fs w))
    | _ => (Exited 1, fs w)
    end.

Definition frames_world : world :=
  World {[ "frames" := Dir [("frame_000_2023-01-01.jpg", File)] ]} [].

(** Two tiles of one colour each, next to each other. *)
Definition red_tile : Compositor.image := Compositor.new 256 256 (255, 0, 0).
Definition green_tile : Compositor.image := Compositor.new 256 256 (0, 255, 0).

Definition west_east : list (Z * Z * Compositor.image) :=
  [(0, 0, red_tile); (1, 0, green_tile)].
Definition east_west : list (Z * Z * Compositor.image) :=
  [(1, 0, green_tile); (0, 0, red_tile)].

End Scenario.

(** ** The WMTS export of earthdata-image-exporter.py *)

Module Exporter.
Import Sys.

Record layer := Layer { id : string; name : string; resolution : string; format : string }.

Definition layers : gmap string layer :=
  list_to_map [
    ("terra_true_color",
      Layer "MODIS_Terra_CorrectedReflectance_TrueColor" "Terra True Color" "250m" "jpg");
    ("terra_false_color",
      Layer "MODIS_Terra_CorrectedReflectance_Bands367" "Terra False Color (3-6-7)"
        "250m" "jpg");
    ("terra_bands721",
      Layer "MODIS_Terra_CorrectedReflectance_Bands721" "Terra Bands 7-2-1" "250m" "jpg");
    ("terra_aerosol",
      Layer "MODIS_Terra_Aerosol" "Terra Aerosol Optical Depth" "1km" "png");
    ("terra_lst",
      Layer "MODIS_Terra_Land_Surface_Temp_Day" "Terra Land Surface Temperature (Day)"
        "1km" "png");
    ("terra_snow",
      Layer "MODIS_Terra_Snow_Cover" "Terra Snow Cover" "500m" "png");
    ("aqua_true_color",
      Layer "MODIS_Aqua_CorrectedReflectance_TrueColor" "Aqua True Color" "250m" "jpg");
    ("viirs_true_color",
      Layer "VIIRS_SNPP_CorrectedReflectance_TrueColor" "VIIRS True Color" "250m" "jpg")
  ].

Definition gibs_wmts_base : string := "https://gibs.earthdata.nasa.gov/wmts/epsg4326/best".

(** The table [zoom_resolutions], in the order of the [dict]:
    1.40625 is 45/32, and each level halves it. *)
Definition zoom_resolutions : list (Z * Q) :=
  [(0, (45 # 32)%Q); (1, (45 # 64)%Q); (2, (45 # 128)%Q); (3, (45 # 256)%Q);
   (4, (45 # 512)%Q); (5, (45 # 1024)%Q)].

(** [max(a, b)] *)
Definition max2 (a b : Q) : Q := if Qle_bool b a then a else b.

(** The loop over the table: the first level that is fine enough decides. *)
Fixpoint zoom_loop (table : list (Z * Q)) (target_res : Q) : Z :=
  match table with
  | [] => 5
  | (zoom, res) :: rest =>
      if Qle_bool res target_res then Z.max 0 (zoom - 1) else zoom_loop rest target_res
  end.

Definition calculate_optimal_zoom (bbox : Planner.bbox4) (width height : Z)
    : Py.result Z :=
  let lon_span := (Planner.b2 bbox - Planner.b0 bbox)%Q in
  let lat_span := (Planner.b3 bbox - Planner.b1 bbox)%Q in
  if width =? 0 then Raise Py.ZeroDivisionError
  else
    let lon_res := (lon_span / inject_Z width)%Q in
    if height =? 0 then Raise Py.ZeroDivisionError
    else
      let lat_res := (lat_span / inject_Z height)%Q in
      let target_res := max2 lon_res lat_res in
      Ok (zoom_loop zoom_resolutions target_res).

Section WmtsExport.
Variable requests_get : string → world → http_outcome.
Variable open_wb : string → world → bool.
(** [Image.open(BytesIO(content))]; [None] when it raises *)
Variable Image_open : string → option Compositor.image.
Variable resample : Compositor.image → Z → Z → Compositor.image.

Definition tile_url (info : layer) (date : string) (zoom_level tile_x tile_y : Z) : string :=
  gibs_wmts_base +:+ "/" +:+ id info +:+ "/default/" +:+ date +:+ "/" +:+ resolution info
    +:+ "/" +:+ Py.str zoom_level +:+ "/" +:+ Py.str tile_y +:+ "/" +:+ Py.str tile_x
    +:+ "." +:+ format info.

(** The loop that downloads the tiles; an exception of the request or of
    [Image.open] is caught and the tile is left out. *)
Fixpoint download_tiles (info : layer) (date : string) (zoom_level : Z)
    (tiles : list (Z * Z)) (tile_images : list (Z * Z * Compositor.image)) (w : world)
    : list (Z * Z * Compositor.image) * world :=
  match tiles with
  | [] => (tile_images, w)
  | (tile_x, tile_y) :: rest =>
      let '(response, w1) :=
        http_get requests_get (tile_url info date zoom_level tile_x tile_y) w in
      let tile_images :=
        match response with
        | Response status_code content =>
            if status_code =? 200 then
              match Image_open content with
              | Some tile_img => tile_images ++ [(tile_x, tile_y, tile_img)]
              | None => tile_images
              end
            else tile_images
        | RequestFailed => tile_images
        end in
      download_tiles info date zoom_level rest tile_images w1
  end.

(** [export_wmts_image]; [result_image.save] raises when the file cannot be
    written. *)
Definition export_wmts_image (layer_key date : string) (bbox : Planner.bbox4)
    (width height : Z) (output_path : string) (w : world) : Py.result bool * world :=
  match layers !! layer_key with
  | None => (Raise Py.ValueError, w)
  | Some info =>
      match calculate_optimal_zoom bbox width height with
      | Raise e => (Raise e, w)
      | Ok zoom_level =>
          let tiles := Planner.get_tiles_for_bbox bbox zoom_level in
          let '(tile_images, w1) := download_tiles info date zoom_level tiles [] w in
          match tile_images with
          | [] => (Ok false, w1)
          | _ =>
              match Compositor.stitch_tiles resample tile_images width height with
              | Raise e => (Raise e, w1)
              | Ok result_image =>
                  let '(saved, w2) := write_file open_wb output_path w1 in
                  if saved then (Ok true, w2) else (Raise Py.FileNotFoundError, w2)
              end
          end
      end
  end.
End WmtsExport.

End Exporter.

(** ** Frame generation of ingest_worker.py *)

Module Ingestor.
Import Sys.

(** What [minio_client.fput_object] does: it stores the object, raises
    [S3Error], or raises something else. *)
Inductive upload_outcome :=
| Uploaded
| S3Failure
| OtherFailure.

Definition resolution_map (layer : string) : string :=
  if String.eqb layer "MODIS_Terra_CorrectedReflectance_TrueColor" then "250m"
  else if String.eqb layer "MODIS_Terra_CorrectedReflectance_Bands721" then "500m"
  else if String.eqb layer "MODIS_Terra_CorrectedReflectance_Bands367" then "500m"
  else if String.eqb layer "MODIS_Terra_SurfaceReflectance_Bands121" then "500m"
  else if String.eqb layer "MODIS_Terra_Aerosol" then "1km"
  else if String.eqb layer "MODIS_Terra_Chlorophyll_A" then "4km"
  else "250m".

Definition format_map (layer : string) : string :=
  if String.eqb layer "MODIS_Terra_Aerosol" then "png"
  else if String.eqb layer "MODIS_Terra_Chlorophyll_A" then "png"
  else "jpg".

Section Frames.
Variable requests_get : string → world → http_outcome.
Variable open_wb : string → world → bool.
Variable fput_object : string → string → world → upload_outcome.
Variable deg2num : Q → Q → Z → Z * Z.
Variable Image_open : string → option Compositor.image.
(** the configuration: [NASA_GIBS_WMTS_URL], [TEMP_DIR], [MINIO_ENDPOINT],
    the bucket, and the text of [hash(str(bbox))] *)
Variable nasa_gibs_url temp_dir endpoint bucket_name : string.
Variable bbox_hash : Planner.bbox_nsew → string.

(** [fetch_wmts_tile]: [raise_for_status] raises for a status from 400 to
    599; every exception gives [None]. *)
Definition fetch_wmts_tile (layer date : string) (z x y : Z) (w : world)
    : option string * world :=
  let url :=
    nasa_gibs_url +:+ "/" +:+ layer +:+ "/default/" +:+ date +:+ "/"
      +:+ resolution_map layer +:+ "/" +:+ Py.str z +:+ "/" +:+ Py.str y +:+ "/"
      +:+ Py.str x +:+ "." +:+ format_map layer in
  let '(response, w1) := http_get requests_get url w in
  match response with
  | Response status_code content =>
      if (400 <=? status_code) && (status_code <? 600) then (None, w1)
      else (Some content, w1)
  | RequestFailed => (None, w1)
  end.

(** The loop over [tile_coords] for one date; empty tile data counts as
    none. *)
Fixpoint fetch_frame_tiles (layer date : string) (zoom : Z) (tile_coords : list (Z * Z))
    (frame_tiles : list (Z * Z * string)) (w : world) : list (Z * Z * string) * world :=
  match tile_coords with
  | [] => (frame_tiles, w)
  | (x, y) :: rest =>
      let '(tile_data, w1) := fetch_wmts_tile layer date zoom x y w in
      let frame_tiles :=
        match tile_data with
        | Some data =>
            if String.eqb data "" then frame_tiles else frame_tiles ++ [(x, y, data)]
        | None => frame_tiles
        end in
      fetch_frame_tiles layer date zoom rest frame_tiles w1
  end.

(** [_compose_frame] with its file: the path of the saved frame, [None]
    without tiles or when saving raises. *)
Definition compose_frame_file (tiles : list (Z * Z * string)) (date : string)
    (bbox : Planner.bbox_nsew) (zoom : Z) (w : world) : option string * world :=
  match Compositor._compose_frame Image_open tiles with
  | None => (None, w)
  | Some frame =>
      let frame_path :=
        Py.path_join temp_dir
          ("frame_" +:+ date +:+ "_" +:+ Py.str zoom +:+ "_" +:+ bbox_hash bbox +:+ ".png") in
      let '(saved, w1) := write_file open_wb frame_path w in
      if saved then (Some frame_path, w1) else (None, w1)
  end.

(** The loop over [dates] of [generate_frames], with the frame URLs so
    far; [Raise] stands for the exception that the function catches. *)
Fixpoint frames_loop (dates : list string) (bbox : Planner.bbox_nsew) (layer : string)
    (zoom : Z) (tile_coords : list (Z * Z)) (frame_urls : list string) (w : world)
    : Py.result (list string) * world :=
  match dates with
  | [] => (Ok frame_urls, w)
  | date :: rest =>
      let '(frame_tiles, w1) := fetch_frame_tiles layer date zoom tile_coords [] w in
      match frame_tiles with
      | [] => frames_loop rest bbox layer zoom tile_coords frame_urls w1
      | _ =>
          match compose_frame_file frame_tiles date bbox zoom w1 with
          | (None, w2) => frames_loop rest bbox layer zoom tile_coords frame_urls w2
          | (Some frame_path, w2) =>
              let object_name :=
                "frames/" +:+ layer +:+ "/" +:+ date +:+ "_" +:+ Py.str zoom +:+ "_"
                  +:+ bbox_hash bbox +:+ ".png" in
              match fput_object frame_path object_name w2 with
              | OtherFailure => (Raise Py.ValueError, w2)
              | S3Failure =>
                  frames_loop rest bbox layer zoom tile_coords frame_urls
                    (remove frame_path w2)
              | Uploaded =>
                  let frame_url :=
                    endpoint +:+ "/" +:+ bucket_name +:+ "/" +:+ object_name in
                  let frame_urls :=
                    if String.eqb frame_url "" then frame_urls
                    else frame_urls ++ [frame_url] in
                  frames_loop rest bbox layer zoom tile_coords frame_urls
                    (remove frame_path w2)
              end
          end
      end
  end.

(** [generate_frames]: the frame URLs, and [[]] after an exception. *)
Definition generate_frames (dates : list string) (bbox : Planner.bbox_nsew)
    (layer : string) (w : world) : list string * world :=
  let zoom := 5 in
  let tile_coords := Planner._get_tile_coordinates deg2num bbox zoom in
  match frames_loop dates bbox layer zoom tile_coords [] w with
  | (Ok frame_urls, w') => (frame_urls, w')
  | (Raise _, w') => ([], w')
  end.
End Frames.

End Ingestor.

(** ** Auxiliary notions for the further properties *)

Module Text.

(** The character [c] does not occur in [s]. *)
Fixpoint lacks (c : ascii) (s : string) : Prop :=
  match s with
  | EmptyString => True
  | String a rest => a ≠ c ∧ lacks c rest
  end.

End Text.

(** * Properties *)

(** ** The nested loops of the planners *)

Section GridFacts.
Context {A : Type} (f : Z → Z → A).

Lemma grid_cons x xs ys :
  Planner.grid f (x :: xs) ys = (f x <$> ys) ++ Planner.grid f xs ys.
Proof. reflexivity. Qed.

Lemma length_grid xs ys :
  length (Planner.grid f xs ys) = (length xs * length ys)%nat.
Proof.
  induction xs as [|x xs IH]; [done|].
  rewrite grid_cons, length_app, length_fmap, IH. simpl. lia.
Qed.

Lemma elem_of_grid a xs ys :
  a ∈ Planner.grid f xs ys ↔ ∃ x y, a = f x y ∧ x ∈ xs ∧ y ∈ ys.
Proof.
  unfold Planner.grid. rewrite list_elem_of_bind. split.
  - intros (x & Ha & Hx). apply list_elem_of_fmap in Ha as (y & -> & Hy). eauto.
  - intros (x & y & -> & Hx & Hy). exists x. split; [|done].
    apply list_elem_of_fmap. eauto.
Qed.

Lemma NoDup_grid xs ys :
  (∀ x y x' y', f x y = f x' y' → x = x' ∧ y = y') →
  NoDup xs → NoDup ys → NoDup (Planner.grid f xs ys).
Proof.
  intros Hinj Hxs Hys. induction Hxs as [|x xs Hx Hxs IH]; [constructor|].
  rewrite grid_cons. apply NoDup_app. split; [|split; [|exact IH]].
  - apply NoDup_fmap_2; [|done]. intros y y' Hy. by destruct (Hinj _ _ _ _ Hy).
  - intros a Ha Ha'. apply list_elem_of_fmap in Ha as (y & -> & Hy).
    apply elem_of_grid in Ha' as (x' & y' & Heq & Hx' & _).
    destruct (Hinj _ _ _ _ Heq) as [-> _]. done.
Qed.

Lemma fmap_grid {B} (g : A → B) xs ys :
  g <$> Planner.grid f xs ys = Planner.grid (λ x y, g (f x y)) xs ys.
Proof.
  induction xs as [|x xs IH]; [done|].
  rewrite !grid_cons, fmap_app, IH. f_equal. by rewrite <- list_fmap_compose.
Qed.
End GridFacts.

Lemma length_range a b : Z.of_nat (length (Py.range a b)) = Z.max 0 (b - a).
Proof. unfold Py.range. rewrite length_seqZ. lia. Qed.

Lemma elem_of_range a b k : k ∈ Py.range a b ↔ a ≤ k < b.
Proof. unfold Py.range. rewrite elem_of_seqZ. lia. Qed.

Lemma NoDup_range a b : NoDup (Py.range a b).
Proof. apply NoDup_seqZ. Qed.

(** ** Tile grid planner *)

(** C8. For a zoom level [z >= 0] the full-coverage planner returns
    [(2^z)^2] coordinates, pairwise distinct, and they are exactly the
    [(z, x, y)] with [0 <= x < 2^z] and [0 <= y < 2^z]; the grid download of
    [download_global_coverage] visits the same cells. *)
Theorem full_coverage_tiles (z : Z) :
  0 ≤ z →
  ∃ tiles,
    Planner.calculate_world_tiles z = Ok tiles
    ∧ Z.of_nat (length tiles) = (2 ^ z) ^ 2
    ∧ NoDup tiles
    ∧ (∀ z' x y, (z', x, y) ∈ tiles ↔ z' = z ∧ 0 ≤ x < 2 ^ z ∧ 0 ≤ y < 2 ^ z)
    ∧ (∀ requests_get open_wb layer_key date output_dir info w w0,
         Fetcher.layers !! layer_key = Some info →
         Sys.makedirs output_dir w = (Ok (), w0) →
         Fetcher.download_global_coverage requests_get open_wb
           layer_key date z output_dir w
         = Fetcher.region_loop requests_get open_wb layer_key date z output_dir info
             ((λ t : Planner.tile, (t.1.2, t.2)) <$> tiles) 0 0 w0).
Proof.
  intros Hz. unfold Planner.calculate_world_tiles.
  destruct (Z.ltb_spec z 0) as [?|_]; [lia|].
  eexists. split; [reflexivity|]. split; [|split; [|split]].
  - rewrite length_grid, Nat2Z.inj_mul, length_range.
    assert (0 < 2 ^ z) by (apply Z.pow_pos_nonneg; lia). lia.
  - apply NoDup_grid; [|apply NoDup_range..]. intros ???? [= -> ->]. done.
  - intros z' x y. rewrite elem_of_grid. setoid_rewrite elem_of_range.
    split.
    + intros (x' & y' & [= -> -> ->] & ? & ?). lia.
    + intros (-> & ? & ?). exists x, y. done.
  - intros requests_get open_wb layer_key date output_dir info w w0 Hl Hmk.
    unfold Fetcher.download_global_coverage, Fetcher.download_region_grid.
    destruct (Z.ltb_spec z 0) as [?|_]; [lia|]. simpl. rewrite Hl, Hmk.
    rewrite fmap_grid. simpl.
    by replace (2 ^ z - 1 + 1) with (2 ^ z) by lia.
Qed.

Lemma full_coverage_tiles_witness :
  ∃ tiles, Planner.calculate_world_tiles 2 = Ok tiles
           ∧ Z.of_nat (length tiles) = 16.
Proof.
  destruct (full_coverage_tiles 2 ltac:(lia)) as (tiles & H1 & H2 & _).
  exists tiles. split; [exact H1|exact H2].
Defined.

(** C7 as the code has it. [_get_tile_coordinates] returns at most 25
    coordinates; [get_tiles_for_bbox] has no such cap: it returns at most
    [(2^z)^2] coordinates, all inside the grid of zoom level [z]. *)
Theorem bbox_tile_counts deg2num (bbox : Planner.bbox_nsew) (bb : Planner.bbox4) (zoom : Z) :
  (length (Planner._get_tile_coordinates deg2num bbox zoom) ≤ 25)%nat
  ∧ (0 ≤ zoom →
     Z.of_nat (length (Planner.get_tiles_for_bbox bb zoom)) ≤ (2 ^ zoom) ^ 2
     ∧ ∀ x y, (x, y) ∈ Planner.get_tiles_for_bbox bb zoom →
              0 ≤ x < 2 ^ zoom ∧ 0 ≤ y < 2 ^ zoom).
Proof.
  split.
  - unfold Planner._get_tile_coordinates.
    destruct (deg2num _ _ _) as [min_x max_y], (deg2num _ _ _) as [max_x min_y].
    rewrite length_take. lia.
  - intros Hz. unfold Planner.get_tiles_for_bbox.
    assert (0 < 2 ^ zoom) by (apply Z.pow_pos_nonneg; lia).
    split.
    + rewrite length_grid, Nat2Z.inj_mul, !length_range. nia.
    + intros x y. rewrite elem_of_grid. setoid_rewrite elem_of_range.
      intros (x' & y' & [= <- <-] & ? & ?). lia.
Qed.

Lemma bbox_tile_counts_witness :
  Z.of_nat (length (Planner.get_tiles_for_bbox (Planner.Bbox4 (-140) 20 (-50) 70) 2))
  ≤ (2 ^ 2) ^ 2.
Proof.
  refine (proj1 (proj2 (bbox_tile_counts (λ _ _ _, (0, 0))
    (Planner.BboxNSEW 0 0 0 0) (Planner.Bbox4 (-140) 20 (-50) 70) 2) _)).
  lia.
Defined.

(** C7 as stated fails on [get_tiles_for_bbox]: the whole globe at zoom
    level 3 gives 64 coordinates. *)
Lemma bbox_tiles_exceed_25 :
  ¬ (length (Planner.get_tiles_for_bbox (Planner.Bbox4 (-180) (-90) 180 90) 3) ≤ 25)%nat.
Proof. vm_compute. lia. Qed.

(** ** Tile fetcher *)

Section FetcherFacts.
Import Sys.
Variable requests_get : string → world → http_outcome.
Variable open_wb : string → world → bool.

Lemma download_single_tile_known layer_key info date z x y output_path w :
  Fetcher.layers !! layer_key = Some info →
  ∃ b w',
    Fetcher.download_single_tile requests_get open_wb layer_key date z x y output_path w
    = (Ok b, w')
    ∧ filter is_get (trace w')
      = filter is_get (trace w) ++ [EvGet (Fetcher.gibs_tile_url info date z x y)].
Proof.
  intros Hl. unfold Fetcher.download_single_tile, http_get. rewrite Hl.
  assert (Hlog : filter is_get (trace (log (EvGet (Fetcher.gibs_tile_url info date z x y)) w))
                 = filter is_get (trace w) ++ [EvGet (Fetcher.gibs_tile_url info date z x y)]).
  { simpl. by rewrite filter_app. }
  destruct (requests_get _ _) as [status_code content|]; [|eauto].
  destruct (status_code =? 200); [|eauto].
  unfold write_file. destruct (open_wb _ _); [|eauto].
  eexists _, _. split; [reflexivity|]. simpl.
  rewrite !filter_app. simpl. by rewrite app_nil_r.
Qed.

Lemma region_loop_counts layer_key info date zoom output_dir cells :
  Fetcher.layers !! layer_key = Some info →
  ∀ s f w, ∃ s' f' w',
    Fetcher.region_loop requests_get open_wb layer_key date zoom output_dir info cells s f w
    = (Ok (s', f'), w')
    ∧ s' + f' = s + f + Z.of_nat (length cells) ∧ s ≤ s' ∧ f ≤ f'.
Proof.
  intros Hl. induction cells as [|[x y] cells IH]; intros s f w; simpl.
  - exists s, f, w. split; [done|lia].
  - edestruct (download_single_tile_known layer_key info date zoom x y) as (b & w1 & -> & _);
      [exact Hl|].
    destruct b.
    + destruct (IH (s + 1) f w1) as (s' & f' & w' & -> & ? & ? & ?).
      exists s', f', w'. split; [done|lia].
    + destruct (IH s (f + 1) w1) as (s' & f' & w' & -> & ? & ? & ?).
      exists s', f', w'. split; [done|lia].
Qed.

(** C9. With [x_min <= x_max] and [y_min <= y_max], a pair returned by
    [download_region_grid] sums to the number of cells of the grid, and a
    pair is returned whenever the layer is known and the output directory
    can be made. *)
Theorem region_grid_counts layer_key date zoom x_min x_max y_min y_max output_dir w :
  x_min ≤ x_max → y_min ≤ y_max →
  (∀ s f w',
     Fetcher.download_region_grid requests_get open_wb layer_key date zoom
       x_min x_max y_min y_max output_dir w = (Ok (s, f), w') →
     s + f = (x_max - x_min + 1) * (y_max - y_min + 1) ∧ 0 ≤ s ∧ 0 ≤ f)
  ∧ (is_Some (Fetcher.layers !! layer_key) → fs w !! output_dir ≠ Some File →
     ∃ s f w',
       Fetcher.download_region_grid requests_get open_wb layer_key date zoom
         x_min x_max y_min y_max output_dir w = (Ok (s, f), w')).
Proof.
  intros Hx Hy. unfold Fetcher.download_region_grid.
  destruct (Fetcher.layers !! layer_key) as [info|] eqn:Hl.
  2: { split; [done|]. by intros [? ?]. }
  destruct (makedirs output_dir w) as [[[]|e] w0] eqn:Hmk.
  2: { split; [done|]. intros _ Hfile. exfalso. revert Hmk. unfold makedirs.
       destruct (fs w !! output_dir) as [[]|]; naive_solver. }
  destruct (region_loop_counts layer_key info date zoom output_dir
              (Planner.grid (λ x y, (x, y))
                 (Py.range x_min (x_max + 1)) (Py.range y_min (y_max + 1)))
              Hl 0 0 w0) as (s' & f' & w' & Hrun & Hsum & ? & ?).
  rewrite Hrun. split; [|eauto].
  intros s f w'' [= <- <- <-]. split; [|lia].
  rewrite Hsum, length_grid, Nat2Z.inj_mul, !length_range. lia.
Qed.

(** C6 as the code has it. [download_tile] answers for a tile that is
    already at its path without a request; [download_single_tile] has no
    such rule and sends a request for every tile of a known layer. *)
Theorem download_tile_skips_existing date z x y output_dir layer w :
  let tile_path := Py.path_join output_dir (Fetcher.tile_filename z x y) in
  is_Some (fs w !! tile_path) →
  (∃ w',
     Fetcher.download_tile requests_get open_wb date z x y output_dir layer w
     = ((Some tile_path, true), w')
     ∧ fs w' = fs w
     ∧ filter is_get (trace w') = filter is_get (trace w))
  ∧ (∀ layer_key info output_path,
       Fetcher.layers !! layer_key = Some info →
       ∃ b w',
         Fetcher.download_single_tile requests_get open_wb
           layer_key date z x y output_path w = (Ok b, w')
         ∧ filter is_get (trace w')
           = filter is_get (trace w) ++ [EvGet (Fetcher.gibs_tile_url info date z x y)]).
Proof.
  intros tile_path Hex. split.
  - unfold Fetcher.download_tile, path_exists. fold tile_path.
    rewrite bool_decide_eq_true_2 by done.
    eexists. split; [reflexivity|]. split; [done|].
    simpl. rewrite filter_app. simpl. by rewrite app_nil_r.
  - intros layer_key info output_path Hl. by apply download_single_tile_known.
Qed.
End FetcherFacts.

Lemma download_tile_skips_existing_witness :
  ∃ w',
    Fetcher.download_tile (λ _ _, Sys.RequestFailed) (λ _ _, true)
      "2023-01-01" 2 1 3 "tiles" None Scenario.cached_world
    = ((Some "tiles/tile_2_1_3.jpg", true), w')
    ∧ Sys.fs w' = Sys.fs Scenario.cached_world
    ∧ filter Sys.is_get (Sys.trace w') = filter Sys.is_get (Sys.trace Scenario.cached_world).
Proof.
  refine (proj1 (download_tile_skips_existing (λ _ _, Sys.RequestFailed) (λ _ _, true)
    "2023-01-01" 2 1 3 "tiles" None Scenario.cached_world _)).
  vm_compute. eauto.
Defined.

(** C6 as stated fails on [download_single_tile]: with the tile already at
    its path it still sends the request, and fails when the server does. *)
Lemma download_single_tile_refetches :
  let r := Fetcher.download_single_tile (λ _ _, Sys.Response 404 "") (λ _ _, true)
             "terra_true_color" "2023-01-01" 2 0 0 "out/t.jpg" Scenario.cached_world in
  is_Some (Sys.fs Scenario.cached_world !! "out/t.jpg")
  ∧ ¬ (r.1 = Ok true ∧ filter Sys.is_get (Sys.trace r.2) = []).
Proof.
  split; [vm_compute; eauto|]. vm_compute. intros [? _]. discriminate.
Qed.

Lemma region_grid_counts_witness :
  ∃ s f w',
    Fetcher.download_region_grid (λ _ _, Sys.Response 200 "") (λ _ _, true)
      "terra_true_color" "2023-01-01" 1 0 1 0 1 "grid" Scenario.cached_world = (Ok (s, f), w')
    ∧ s + f = 4.
Proof.
  destruct (region_grid_counts (λ _ _, Sys.Response 200 "") (λ _ _, true)
    "terra_true_color" "2023-01-01" 1 0 1 0 1 "grid" Scenario.cached_world
    ltac:(lia) ltac:(lia)) as [Hsum Hret].
  destruct Hret as (s & f & w' & Hrun); [vm_compute; eauto|vm_compute; discriminate|].
  exists s, f, w'. split; [exact Hrun|]. apply (Hsum s f w' Hrun).
Defined.

(** ** Frame and date orchestrator *)

Section StrptimeFacts.
Import Orchestrator.

Lemma digit_range c n : digit c = Some n → 0 ≤ n ≤ 9.
Proof.
  unfold digit.
  destruct (Z.leb_spec 48 (Z.of_N (N_of_ascii c))),
    (Z.leb_spec (Z.of_N (N_of_ascii c)) 57); simpl; intros [= <-]; lia.
Qed.

Lemma two_range alo ahi blo bhi s v rest :
  two alo ahi blo bhi s = Some (v, rest) → 10 * alo + blo ≤ v ≤ 10 * ahi + bhi.
Proof.
  unfold two. destruct s as [|a [|b s]]; try done.
  destruct (digit a) as [da|]; [simpl|done].
  destruct (digit b) as [db|]; [simpl|done].
  destruct (Z.leb_spec alo da), (Z.leb_spec da ahi),
    (Z.leb_spec blo db), (Z.leb_spec db bhi); simpl; intros [= <- <-]; lia.
Qed.

Lemma one_range lo hi s v rest : one lo hi s = Some (v, rest) → lo ≤ v ≤ hi.
Proof.
  unfold one. destruct s as [|a s]; try done.
  destruct (digit a) as [da|]; [simpl|done].
  destruct (Z.leb_spec lo da), (Z.leb_spec da hi); simpl; intros [= <- <-]; lia.
Qed.

Lemma match_Y_range s y rest : match_Y s = Some (y, rest) → 0 ≤ y ≤ 9999.
Proof.
  unfold match_Y. destruct s as [|a [|b [|c [|d s]]]]; try done.
  destruct (digit a) as [da|] eqn:Ha; [simpl|done].
  destruct (digit b) as [db|] eqn:Hb; [simpl|done].
  destruct (digit c) as [dc|] eqn:Hc; [simpl|done].
  destruct (digit d) as [dd|] eqn:Hd; [simpl|done].
  apply digit_range in Ha, Hb, Hc, Hd. intros [= <- <-]. lia.
Qed.

Lemma match_m_range s m rest : match_m s = Some (m, rest) → 1 ≤ m ≤ 12.
Proof.
  unfold match_m, orelse.
  destruct (two 1 1 0 2 s) as [[]|] eqn:H1.
  { intros [= <- <-]. apply two_range in H1. lia. }
  destruct (two 0 0 1 9 s) as [[]|] eqn:H2.
  { intros [= <- <-]. apply two_range in H2. lia. }
  intros H3. apply one_range in H3. lia.
Qed.

Lemma match_d_range s d rest : match_d s = Some (d, rest) → 1 ≤ d ≤ 31.
Proof.
  unfold match_d, orelse.
  destruct (two 3 3 0 1 s) as [[]|] eqn:H1.
  { intros [= <- <-]. apply two_range in H1. lia. }
  destruct (two 1 2 0 9 s) as [[]|] eqn:H2.
  { intros [= <- <-]. apply two_range in H2. lia. }
  destruct (two 0 0 1 9 s) as [[]|] eqn:H3.
  { intros [= <- <-]. apply two_range in H3. lia. }
  destruct (one 1 9 s) as [[]|] eqn:H4.
  { intros [= <- <-]. apply one_range in H4. lia. }
  destruct s as [|c s]; [done|].
  destruct (Ascii.ascii_dec c " ") as [->|Hc].
  - intros H5. apply one_range in H5. lia.
  - destruct c as [[] [] [] [] [] [] [] []]; try done.
Qed.

(** A string [strptime] accepts is read as a day of the calendar. *)
Lemma strptime_Ymd_valid s dt :
  strptime_Ymd s = Some dt →
  1 ≤ year dt ≤ 9999 ∧ 1 ≤ month dt ≤ 12
  ∧ 1 ≤ day dt ≤ days_in_month (year dt) (month dt).
Proof.
  unfold strptime_Ymd.
  destruct (match_Y s) as [[y s1]|] eqn:HY; [simpl|done].
  destruct (match_dash s1) as [s2|]; [simpl|done].
  destruct (match_m s2) as [[m s3]|] eqn:Hm; [simpl|done].
  destruct (match_dash s3) as [s4|]; [simpl|done].
  destruct (match_d s4) as [[d s5]|] eqn:Hd; [simpl|done].
  apply match_Y_range in HY. apply match_m_range in Hm. apply match_d_range in Hd.
  destruct (String.eqb s5 ""); [simpl|done].
  destruct (Z.leb_spec 1 y); [simpl|done].
  destruct (Z.leb_spec d (days_in_month y m)); [simpl|done].
  intros [= <-]. simpl. lia.
Qed.
End StrptimeFacts.

Section OrchestratorFacts.
Import Sys Orchestrator.

Lemma scan_part_inv (P : string → Prop) dates part :
  (∀ d, d ∈ dates → P d) →
  (String.length part = 10%nat → is_Some (strptime_Ymd part) → P part) →
  ∀ d, d ∈ scan_part dates part → P d.
Proof.
  intros Hd Hp d. unfold scan_part.
  destruct (Z.eqb_spec (Z.of_nat (String.length part)) 10) as [Hlen|]; simpl; [|auto].
  destruct (count "-" part =? 2); [|auto].
  destruct (strptime_Ymd part) as [dt|] eqn:Hparse; [|auto].
  rewrite elem_of_union, elem_of_singleton. intros [->|?]; [|auto].
  apply Hp; [lia|eauto].
Qed.

Local Abbreviation date_text d :=
  (String.length d = 10%nat ∧ is_Some (strptime_Ymd d)).

Lemma scan_parts_inv parts :
  ∀ dates, (∀ d, d ∈ dates → date_text d) →
           ∀ d, d ∈ foldl scan_part dates parts → date_text d.
Proof.
  induction parts as [|part parts IH]; intros dates Hd; [done|].
  simpl. apply IH. apply scan_part_inv; [done|]. by split.
Qed.

Lemma scan_files_inv files :
  ∀ dates, (∀ d, d ∈ dates → date_text d) →
           ∀ d, d ∈ foldl scan_file dates files → date_text d.
Proof.
  induction files as [|file files IH]; intros dates Hd; [done|].
  simpl. apply IH. unfold scan_file.
  destruct (_ || _); [|done]. by apply scan_parts_inv.
Qed.

(** C10. The list [find_downloaded_dates] returns is sorted in ascending
    order and without duplicates, holds only strings of 10 characters that
    [strptime] reads as a day of the calendar, and is empty when the
    directory does not exist. *)
Theorem find_downloaded_dates_sorted_dates (terra_downloads_dir : string) (w : world) :
  let dates := (find_downloaded_dates terra_downloads_dir w).1 in
  StronglySorted String.le dates
  ∧ NoDup dates
  ∧ (∀ d, d ∈ dates →
       String.length d = 10%nat
       ∧ ∃ dt, strptime_Ymd d = Some dt
               ∧ 1 ≤ year dt ≤ 9999 ∧ 1 ≤ month dt ≤ 12
               ∧ 1 ≤ day dt ≤ days_in_month (year dt) (month dt))
  ∧ (fs w !! terra_downloads_dir = None → dates = []).
Proof.
  unfold find_downloaded_dates, path_exists. simpl.
  destruct (bool_decide_reflect (is_Some (fs w !! terra_downloads_dir))) as [Hex|Hex]; simpl.
  - unfold sorted. split; [|split; [|split]].
    + apply (StronglySorted_merge_sort _).
    + rewrite merge_sort_Permutation. apply NoDup_elements.
    + intros d. rewrite merge_sort_Permutation, elem_of_elements. intros Hd.
      assert (Hempty : ∀ d', d' ∈ (∅ : gset string) → date_text d')
        by (by intros ? ?%elem_of_empty).
      destruct (scan_files_inv _ ∅ Hempty d Hd) as [Hlen [dt Hdt]].
      split; [done|]. exists dt. split; [done|]. by apply (strptime_Ymd_valid d).
    + intros Hnone. rewrite Hnone in Hex. by destruct Hex.
  - split; [constructor|]. split; [constructor|].
    split; [by intros ? ?%elem_of_nil|done].
Qed.

Variable subprocess_run : list string → world → proc_outcome * gmap string node.
Variable expires : list string → world → bool.
Variable sys_executable script_dir : string.

Lemma process_date_existing (a : args) (st : state) (date : string) :
  is_Some (fs (now st) !! expected_path a date) →
  process_date subprocess_run expires sys_executable script_dir a st date
  = State (successful st + 1) (failed st)
      (log (EvExists (expected_path a date)) (now st)).
Proof.
  intros Hex. unfold process_date, path_exists.
  by rewrite bool_decide_eq_true_2 by done.
Qed.

(** C1 as the code has it. The turn of the loop for a date whose world map
    is already at its expected path adds one to [successful] (there is no
    counter of skipped dates), leaves [failed] as it is, starts no
    sub-process and sends no request: it only looks the path up. *)
Theorem existing_map_counts_successful (a : args) (st : state) (date : string) :
  is_Some (fs (now st) !! expected_path a date) →
  let st' := process_date subprocess_run expires sys_executable script_dir a st date in
  successful st' = successful st + 1
  ∧ failed st' = failed st
  ∧ now st' = log (EvExists (expected_path a date)) (now st)
  ∧ filter is_run (trace (now st')) = filter is_run (trace (now st))
  ∧ filter is_get (trace (now st')) = filter is_get (trace (now st)).
Proof.
  intros Hex. rewrite process_date_existing by done. simpl.
  rewrite !filter_app. simpl. by rewrite !app_nil_r.
Qed.

(** X25. A run over dates that all have their world map: every one is
    counted in [successful] and no sub-process is started. *)
Lemma all_existing_maps (a : args) (dates : list string) :
  ∀ st,
    (∀ d, d ∈ dates → is_Some (fs (now st) !! expected_path a d)) →
    let st' := foldl (process_date subprocess_run expires sys_executable script_dir a)
                 st dates in
    successful st' = successful st + Z.of_nat (length dates)
    ∧ failed st' = failed st
    ∧ fs (now st') = fs (now st)
    ∧ filter is_run (trace (now st')) = filter is_run (trace (now st)).
Proof.
  induction dates as [|d dates IH]; intros st Hall; simpl.
  - repeat split; lia.
  - rewrite process_date_existing by (apply Hall; left).
    destruct (IH (State (successful st + 1) (failed st)
                    (log (EvExists (expected_path a d)) (now st))))
      as (Hs' & Hf' & Hw' & Hr').
    { intros d' Hd'. simpl. apply Hall. by right. }
    rewrite Hs', Hf', Hw', Hr'. simpl.
    rewrite filter_app. simpl. rewrite app_nil_r. repeat split; lia.
Qed.
End OrchestratorFacts.

Lemma find_downloaded_dates_sorted_dates_witness :
  (Orchestrator.find_downloaded_dates "downloads" Scenario.batch_world).1
  = ["2023-01-01"; "2023-01-02"]
  ∧ StronglySorted String.le
      (Orchestrator.find_downloaded_dates "downloads" Scenario.batch_world).1.
Proof.
  split; [vm_compute; reflexivity|].
  exact (proj1 (find_downloaded_dates_sorted_dates "downloads" Scenario.batch_world)).
Defined.

Lemma existing_map_counts_successful_witness :
  let st := Orchestrator.State 0 0 Scenario.batch_world in
  let st' := Orchestrator.process_date Scenario.absent Scenario.on_time "python3" "scripts"
               Scenario.batch_args st "2023-01-01" in
  Orchestrator.successful st' = 0 + 1 ∧ Orchestrator.failed st' = 0.
Proof.
  destruct (existing_map_counts_successful Scenario.absent Scenario.on_time
              "python3" "scripts" Scenario.batch_args
              (Orchestrator.State 0 0 Scenario.batch_world) "2023-01-01")
    as (Hs & Hf & _).
  - vm_compute. eauto.
  - split; [exact Hs|exact Hf].
Defined.

(** C1 as stated fails: with the world map of the date in place, the turn
    of the loop raises [successful]. *)
Lemma existing_map_raises_successful :
  let st := Orchestrator.State 0 0 Scenario.batch_world in
  let st' := Orchestrator.process_date Scenario.absent Scenario.on_time "python3" "scripts"
               Scenario.batch_args st "2023-01-01" in
  is_Some (Sys.fs Scenario.batch_world
             !! Orchestrator.expected_path Scenario.batch_args "2023-01-01")
  ∧ ¬ (Orchestrator.successful st' = Orchestrator.successful st).
Proof. split; [vm_compute; eauto|]. vm_compute. discriminate. Qed.

(** C2 on the code. With downloads of 2023 only and [--start-date
    2024-01-01] no date is left to process, and [main] ends in the
    [ZeroDivisionError] of the success rate, whatever the sub-processes do. *)
Theorem success_rate_divides_by_zero subprocess_run expires sys_executable script_dir :
  (Orchestrator.main subprocess_run expires sys_executable script_dir
     Scenario.late_args Scenario.batch_world).1
  = Raise Py.ZeroDivisionError
  ∧ Orchestrator.select_dates Scenario.late_args
      (Orchestrator.find_downloaded_dates "downloads" Scenario.batch_world).1 = []
  ∧ Orchestrator.success_rate 0 0 = Raise Py.ZeroDivisionError.
Proof. split; [|split]; vm_compute; reflexivity. Qed.

(** ** Encoder adapter *)

(** C4 on the code. When the second [ffmpeg] call fails, the function
    returns [False] and [palette.png] is still there. *)
Theorem gif_palette_left_on_failure :
  let r := Encoder.create_gif_from_frames Scenario.ffmpeg_fails_on_gif
             "frames" "out.gif" "2.0" 800 Scenario.frames_world in
  r.1 = Ok false
  ∧ is_Some (Sys.fs r.2 !! "palette.png")
  ∧ filter Sys.is_remove (Sys.trace r.2) = [].
Proof. split; [|split]; vm_compute; eauto. Qed.

(** C5 on the code. Without [ffmpeg] the GIF path looks the frames
    directory up and lists it, and then ends in the uncaught
    [FileNotFoundError] of its first [subprocess.run]; it prints no report
    of a missing tool. *)
Theorem gif_lists_frames_without_tool :
  let r := Encoder.create_gif_from_frames Scenario.absent
             "frames" "out.gif" "2.0" 800 Scenario.frames_world in
  r.1 = Raise Py.FileNotFoundError
  ∧ Sys.trace r.2
    = [Sys.EvExists "frames"; Sys.EvListdir "frames";
       Sys.EvRun ["ffmpeg"; "-y"; "-framerate"; "2.0"; "-pattern_type"; "glob";
                  "-i"; "frames/frame_%03d_*.jpg";
                  "-vf"; "scale=800:-1:flags=lanczos,palettegen=reserve_transparent=0";
                  "-y"; "palette.png"]].
Proof. split; vm_compute; reflexivity. Qed.

Section EncoderFacts.
Import Sys.
Variable subprocess_run : list string → world → proc_outcome * gmap string node.

(** X24. The MP4 path does check for the tool first: with the frames
    directory in place and no [ffmpeg], it reports the missing tool and
    returns [False] without listing the directory. *)
Lemma video_reports_missing_tool frames_dir output_path fps quality w :
  is_Some (fs w !! frames_dir) →
  (subprocess_run ["ffmpeg"; "-version"] (log (EvExists frames_dir) w)).1 = NotFound →
  ∃ w',
    Encoder.create_video_from_frames subprocess_run frames_dir output_path fps quality w
    = (Ok false, w')
    ∧ filter is_listdir (trace w') = filter is_listdir (trace w)
    ∧ EvPrint "Error: ffmpeg is not installed or not in PATH" ∈ trace w'.
Proof.
  intros Hex Habsent.
  unfold Encoder.create_video_from_frames, path_exists, Encoder.run_checked, run.
  rewrite bool_decide_eq_true_2 by done. simpl.
  destruct (subprocess_run _ _) as [out fs']. simpl in Habsent. subst out.
  eexists. split; [reflexivity|]. simpl. split.
  - rewrite !filter_app. simpl. by rewrite !app_nil_r.
  - rewrite !elem_of_app, !list_elem_of_singleton. eauto.
Qed.
End EncoderFacts.

(** ** Mosaic compositor *)

Section FoldPermutation.
Context {A B K : Type} (f : B → A → B) (key : A → K) (fits : A → Prop).
Hypothesis f_comm :
  ∀ b a1 a2, fits a1 → fits a2 → key a1 ≠ key a2 → f (f b a1) a2 = f (f b a2) a1.

(** A loop whose turns commute for items of different keys gives the same
    result on every ordering of a list without two items of one key. *)
Lemma foldl_permutation_keys (l1 l2 : list A) :
  l1 ≡ₚ l2 → NoDup (key <$> l1) → Forall fits l1 →
  ∀ b, foldl f b l1 = foldl f b l2.
Proof.
  induction 1 as [|x l1 l2 Hperm IH|x y l|l1 l2 l3 H12 IH12 H23 IH23];
    intros Hnd Hfits b.
  - done.
  - simpl. apply NoDup_cons in Hnd as [_ Hnd]. apply Forall_cons in Hfits as [_ Hfits].
    by apply IH.
  - simpl. f_equal.
    apply NoDup_cons in Hnd as [Hy Hnd]. apply Forall_cons in Hfits as [Hfy Hfits].
    apply Forall_cons in Hfits as [Hfx _].
    apply f_comm; [done..|]. intros Heq. apply Hy. rewrite Heq. left.
  - rewrite IH12 by done. apply IH23.
    + by rewrite <- H12.
    + by rewrite <- H12.
Qed.
End FoldPermutation.

Section CompositorFacts.
Import Compositor.

Lemma getpixel_Some_bounds im x y c :
  getpixel im x y = Some c → 0 ≤ x < width im ∧ 0 ≤ y < height im.
Proof.
  unfold getpixel.
  destruct (Z.leb_spec 0 x), (Z.ltb_spec x (width im)),
    (Z.leb_spec 0 y), (Z.ltb_spec y (height im)); simpl; first [done | lia].
Qed.

(** Two pastes that cover no common pixel can be done in either order. *)
Lemma paste_comm canvas a b oxa oya oxb oyb :
  (∀ x y, getpixel a (x - oxa) (y - oya) = None ∨ getpixel b (x - oxb) (y - oyb) = None) →
  paste (paste canvas a oxa oya) b oxb oyb = paste (paste canvas b oxb oyb) a oxa oya.
Proof.
  intros Hdisj. unfold paste. simpl. f_equal.
  apply list_eq. intros i. rewrite !list_lookup_imap.
  destruct (pixels canvas !! i) as [old|]; [simpl|done]. f_equal.
  destruct (Hdisj (Z.of_nat i `mod` width canvas) (Z.of_nat i `div` width canvas))
    as [-> | ->]; simpl; by destruct (getpixel _ _ _).
Qed.

(** Tiles no larger than [tile_size], at different cells of a grid of
    pitch [tile_size], cover no common pixel. *)
Lemma tiles_disjoint a b xa ya xb yb dx dy :
  width a ≤ tile_size → height a ≤ tile_size →
  width b ≤ tile_size → height b ≤ tile_size →
  (xa, ya) ≠ (xb, yb) →
  ∀ x y, getpixel a (x - (xa - dx) * tile_size) (y - (ya - dy) * tile_size) = None
         ∨ getpixel b (x - (xb - dx) * tile_size) (y - (yb - dy) * tile_size) = None.
Proof.
  unfold tile_size. intros ? ? ? ? Hne x y.
  destruct (getpixel a _ _) as [ca|] eqn:Ha; [|by left].
  destruct (getpixel b _ _) as [cb|] eqn:Hb; [|by right].
  apply getpixel_Some_bounds in Ha, Hb. exfalso. apply Hne.
  assert (xa = xb) by lia. assert (ya = yb) by lia. by subst.
Qed.

Variable Image_open : string → option image.
Local Abbreviation fits_tile := (Compositor.fits_tile Image_open).

Lemma place_world_tile_comm acc (t1 t2 : Z * Z * Z * string) :
  fits_tile t1.2 → fits_tile t2.2 →
  (t1.1.1.2, t1.1.2) ≠ (t2.1.1.2, t2.1.2) →
  place_world_tile Image_open (place_world_tile Image_open acc t1) t2
  = place_world_tile Image_open (place_world_tile Image_open acc t2) t1.
Proof.
  destruct t1 as [[[z1 x1] y1] p1], t2 as [[[z2 x2] y2] p2], acc as [canvas n].
  simpl. intros H1 H2 Hne. unfold place_world_tile.
  destruct (Image_open p1) as [a|] eqn:Ha, (Image_open p2) as [b|] eqn:Hb;
    simpl; try done.
  destruct (H1 a Ha), (H2 b Hb). f_equal.
  pose proof (tiles_disjoint a b x1 y1 x2 y2 0 0) as Hd.
  rewrite !Z.sub_0_r in Hd. apply paste_comm. by apply Hd.
Qed.

Lemma place_frame_tile_comm min_x min_y frame (t1 t2 : Z * Z * string) :
  fits_tile t1.2 → fits_tile t2.2 → t1.1 ≠ t2.1 →
  place_frame_tile Image_open min_x min_y
    (place_frame_tile Image_open min_x min_y frame t1) t2
  = place_frame_tile Image_open min_x min_y
      (place_frame_tile Image_open min_x min_y frame t2) t1.
Proof.
  destruct t1 as [[x1 y1] p1], t2 as [[x2 y2] p2].
  simpl. intros H1 H2 Hne. unfold place_frame_tile.
  destruct (Image_open p1) as [a|] eqn:Ha, (Image_open p2) as [b|] eqn:Hb;
    simpl; try done.
  destruct (H1 a Ha), (H2 b Hb). apply paste_comm. by apply tiles_disjoint.
Qed.

(** X22. [stitch_world_map] does place by coordinate: tiles at pairwise
    different [(x, y)], none larger than [tile_size], give the same world
    map in every order. *)
Lemma stitch_world_map_permutation (tiles tiles' : list (Z * Z * Z * string)) zoom_level :
  tiles ≡ₚ tiles' →
  NoDup ((λ t : Z * Z * Z * string, (t.1.1.2, t.1.2)) <$> tiles) →
  Forall (λ t : Z * Z * Z * string, fits_tile t.2) tiles →
  stitch_world_map Image_open tiles zoom_level
  = stitch_world_map Image_open tiles' zoom_level.
Proof.
  intros Hperm Hnd Hfits. unfold stitch_world_map.
  destruct tiles as [|t tiles].
  { apply Permutation_nil_l in Hperm. by subst. }
  destruct tiles' as [|t' tiles'].
  { by apply Permutation_nil_r in Hperm. }
  f_equal. f_equal.
  apply (foldl_permutation_keys (place_world_tile Image_open)
           (λ t : Z * Z * Z * string, (t.1.1.2, t.1.2))
           (λ t : Z * Z * Z * string, fits_tile t.2)); try done.
  intros. by apply place_world_tile_comm.
Qed.
End CompositorFacts.

Section Extremum.
Variable op : Z → Z → Z.
Variable R : relation Z.
Hypothesis op_choice : ∀ a b, op a b = a ∨ op a b = b.
Hypothesis op_l : ∀ a b, R (op a b) a.
Hypothesis op_r : ∀ a b, R (op a b) b.
Hypothesis R_refl : ∀ a, R a a.
Hypothesis R_trans : ∀ a b c, R a b → R b c → R a c.
Hypothesis R_antisym : ∀ a b, R a b → R b a → a = b.

Lemma foldl_extremum l :
  ∀ a, (foldl op a l = a ∨ foldl op a l ∈ l)
       ∧ R (foldl op a l) a ∧ Forall (R (foldl op a l)) l.
Proof.
  induction l as [|x l IH]; intros a; simpl.
  - split; [by left|]. split; [done|constructor].
  - destruct (IH (op a x)) as (Hin & Hle & Hall). split; [|split].
    + destruct Hin as [Heq|Hin]; [|right; by right].
      rewrite Heq. destruct (op_choice a x) as [->| ->]; [by left|right; left].
    + eapply R_trans; [exact Hle|apply op_l].
    + constructor; [|done]. eapply R_trans; [exact Hle|apply op_r].
Qed.

Lemma extremum_permutation x l y l' :
  x :: l ≡ₚ y :: l' → foldl op x l = foldl op y l'.
Proof.
  intros Hperm.
  destruct (foldl_extremum l x) as (Hin & Hx & Hall).
  destruct (foldl_extremum l' y) as (Hin' & Hy & Hall').
  assert (Hmem : foldl op x l ∈ y :: l').
  { rewrite <- Hperm. destruct Hin as [->|?]; [left|by right]. }
  assert (Hmem' : foldl op y l' ∈ x :: l).
  { rewrite Hperm. destruct Hin' as [->|?]; [left|by right]. }
  apply R_antisym.
  - apply (proj1 (Forall_forall _ _) (Forall_cons_2 _ _ _ Hx Hall) _ Hmem').
  - apply (proj1 (Forall_forall _ _) (Forall_cons_2 _ _ _ Hy Hall') _ Hmem).
Qed.
End Extremum.

Lemma py_min_permutation l l' : l ≡ₚ l' → Compositor.py_min l = Compositor.py_min l'.
Proof.
  intros Hperm. destruct l as [|x l], l' as [|y l']; simpl.
  - done.
  - by apply Permutation_nil_l in Hperm.
  - by apply Permutation_nil_r in Hperm.
  - apply (extremum_permutation Z.min Z.le); try done; intros; lia.
Qed.

Lemma py_max_permutation l l' : l ≡ₚ l' → Compositor.py_max l = Compositor.py_max l'.
Proof.
  intros Hperm. destruct l as [|x l], l' as [|y l']; simpl.
  - done.
  - by apply Permutation_nil_l in Hperm.
  - by apply Permutation_nil_r in Hperm.
  - apply (extremum_permutation Z.max (flip Z.le)); try done; unfold flip; intros; lia.
Qed.

Section FrameFacts.
Import Compositor.
Variable Image_open : string → option image.

(** X23. [_compose_frame] places by coordinate as well: tiles at pairwise
    different [(x, y)], none larger than [tile_size], give the same frame in
    every order. *)
Lemma compose_frame_permutation (tiles tiles' : list (Z * Z * string)) :
  tiles ≡ₚ tiles' →
  NoDup (tiles.*1) →
  Forall (λ t : Z * Z * string, fits_tile Image_open t.2) tiles →
  _compose_frame Image_open tiles = _compose_frame Image_open tiles'.
Proof.
  intros Hperm Hnd Hfits.
  assert (Hmin_x : py_min (tiles.*1.*1) = py_min (tiles'.*1.*1))
    by (apply py_min_permutation; by rewrite Hperm).
  assert (Hmax_x : py_max (tiles.*1.*1) = py_max (tiles'.*1.*1))
    by (apply py_max_permutation; by rewrite Hperm).
  assert (Hmin_y : py_min (tiles.*1.*2) = py_min (tiles'.*1.*2))
    by (apply py_min_permutation; by rewrite Hperm).
  assert (Hmax_y : py_max (tiles.*1.*2) = py_max (tiles'.*1.*2))
    by (apply py_max_permutation; by rewrite Hperm).
  destruct tiles as [|t tiles].
  { apply Permutation_nil_l in Hperm. by subst. }
  destruct tiles' as [|t' tiles'].
  { by apply Permutation_nil_r in Hperm. }
  unfold _compose_frame. rewrite Hmin_x, Hmax_x, Hmin_y, Hmax_y. f_equal.
  apply (foldl_permutation_keys _ (λ t : Z * Z * string, t.1)
           (λ t : Z * Z * string, fits_tile Image_open t.2)); try done.
  intros. by apply place_frame_tile_comm.
Qed.
End FrameFacts.

Section PixelFacts.
Import Compositor.

Lemma getpixel_new w h c x y :
  0 ≤ x < w → 0 ≤ y < h → getpixel (new w h c) x y = Some c.
Proof.
  intros Hx Hy. unfold getpixel, new. simpl.
  destruct (Z.leb_spec 0 x), (Z.ltb_spec x w), (Z.leb_spec 0 y), (Z.ltb_spec y h);
    try lia. simpl.
  apply lookup_replicate_2. nia.
Qed.

Lemma getpixel_outside im x y : x < 0 → getpixel im x y = None.
Proof. intros Hx. unfold getpixel. by destruct (Z.leb_spec 0 x); [lia|]. Qed.

(** What a paste leaves at a pixel of the canvas. *)
Lemma getpixel_paste canvas tile ox oy x y :
  0 ≤ x < width canvas → 0 ≤ y →
  getpixel (paste canvas tile ox oy) x y
  = (λ old, default old (getpixel tile (x - ox) (y - oy))) <$> getpixel canvas x y.
Proof.
  intros Hx Hy. unfold getpixel at 1 3. simpl.
  destruct ((0 <=? x) && (x <? width canvas) && (0 <=? y) && (y <? height canvas));
    [|done].
  rewrite list_lookup_imap.
  destruct (pixels canvas !! Z.to_nat (y * width canvas + x)) as [old|]; [simpl|done].
  rewrite Z2Nat.id by nia.
  rewrite Z.add_comm, Z.mod_add, Z.div_add, Z.mod_small, Z.div_small by lia.
  done.
Qed.

(** The two turns of the loop of [stitch_tiles] on a canvas of 512 by 256
    pixels. *)
Lemma stitch_tiles_pair resample (ta tb : Z * Z) (a b : image) :
  stitch_tiles resample [(ta, a); (tb, b)] 512 256
  = Ok (paste (paste (new 512 256 (0, 0, 50)) a 0 0) b 256 0).
Proof. destruct ta, tb. reflexivity. Qed.
End PixelFacts.

(** C3 on the code. [stitch_tiles] places the tiles by their position in
    the list and not by [(tile_x, tile_y)]: the same two tiles in the other
    order give another image. *)
Theorem stitch_tiles_depends_on_order resample :
  Scenario.west_east ≡ₚ Scenario.east_west
  ∧ Compositor.stitch_tiles resample Scenario.west_east 512 256
    ≠ Compositor.stitch_tiles resample Scenario.east_west 512 256.
Proof.
  split; [apply Permutation_swap|].
  unfold Scenario.west_east, Scenario.east_west.
  rewrite !stitch_tiles_pair. intros Heq.
  apply (f_equal (λ r, match r with
                       | Ok im => Compositor.getpixel im 0 0
                       | Raise _ => None
                       end)) in Heq.
  cbv beta iota in Heq.
  rewrite !getpixel_paste in Heq by (simpl; lia).
  rewrite (getpixel_new 512 256 (0, 0, 50) 0 0) in Heq by lia.
  change (0 - 0) with 0 in Heq. change (0 - 256) with (-256) in Heq.
  rewrite !(getpixel_outside _ (-256) 0) in Heq by lia.
  unfold Scenario.red_tile, Scenario.green_tile in Heq.
  rewrite !(getpixel_new 256 256 _ 0 0) in Heq by lia.
  discriminate Heq.
Qed.

(** * Further properties of the code *)

(** ** The batch run of batch-world-map-generator.py *)

Section BatchFacts.
Import Sys Orchestrator.
Variable subprocess_run : list string → world → proc_outcome * gmap string node.
Variable expires : list string → world → bool.
Variable sys_executable script_dir : string.

Local Abbreviation step :=
  (process_date subprocess_run expires sys_executable script_dir).

Lemma process_date_counts (a : args) (st : state) (date : string) :
  successful (step a st date) + failed (step a st date)
  = successful st + failed st + 1
  ∧ successful st ≤ successful (step a st date)
  ∧ failed st ≤ failed (step a st date)
  ∧ (length (filter is_run (trace (now (step a st date))))
     ≤ S (length (filter is_run (trace (now st)))))%nat.
Proof.
  unfold process_date, path_exists, generate_world_map_for_date, run.
  destruct (bool_decide _); simpl.
  - rewrite filter_app, length_app. simpl. lia.
  - destruct (subprocess_run _ _) as [out fs']. simpl.
    assert (Hlen : (length (filter is_run
                       ((trace (now st) ++ [EvExists (expected_path a date)])
                        ++ [EvRun [sys_executable;
                                   Py.path_join script_dir "complete-world-map-generator.py";
                                   "--date"; date; "--output"; output a;
                                   "--zoom"; Py.str (zoom a)]]))
                    ≤ S (length (filter is_run (trace (now st)))))%nat).
    { rewrite !filter_app, !length_app. simpl. lia. }
    destruct (expires _ _); simpl; [split; [lia|split; [lia|split; [lia|exact Hlen]]]|].
    destruct out as [returncode|]; [destruct (returncode =? 0)|]; simpl;
      (split; [lia|split; [lia|split; [lia|exact Hlen]]]).
Qed.

(** X1. Every date of a batch run is counted once, as a success or as a
    failure, and at most one sub-process is started per date. *)
Theorem batch_counts_every_date (a : args) (dates : list string) (st : state) :
  let st' := foldl (step a) st dates in
  successful st' + failed st' = successful st + failed st + Z.of_nat (length dates)
  ∧ successful st ≤ successful st'
  ∧ failed st ≤ failed st'
  ∧ (length (filter is_run (trace (now st')))
     ≤ length (filter is_run (trace (now st))) + length dates)%nat.
Proof.
  revert st. induction dates as [|d dates IH]; intros st; simpl.
  - lia.
  - destruct (process_date_counts a st d) as (Hsum & Hs & Hf & Hr).
    destruct (IH (step a st d)) as (Hsum' & Hs' & Hf' & Hr'). lia.
Qed.



(** X3. The dates left by the filters and the limit are dates of the scan,
    in the order of the scan; each lies between the start date and the end
    date where these are given, and a positive limit bounds their number. *)
Theorem select_dates_within (a : args) (available : list string) :
  select_dates a available `sublist_of` available
  ∧ (∀ d, d ∈ select_dates a available →
       (∀ start, truthy (start_date a) = Some start → String.le start d)
       ∧ (∀ stop, truthy (end_date a) = Some stop → String.le d stop))
  ∧ (∀ n, limit a = Some n → 0 < n →
       Z.of_nat (length (select_dates a available)) ≤ n).
Proof.
  unfold select_dates.
  set (l1 := match truthy (start_date a) with
             | Some start => filter (λ d, String.le start d) available
             | None => available
             end).
  set (l2 := match truthy (end_date a) with
             | Some stop => filter (λ d, String.le d stop) l1
             | None => l1
             end).
  set (l3 := match limit a with
             | Some n => if n =? 0 then l2 else slice_to n l2
             | None => l2
             end).
  assert (H1 : l1 `sublist_of` available).
  { unfold l1. destruct (truthy (start_date a)); [apply sublist_filter|done]. }
  assert (H2 : l2 `sublist_of` l1).
  { unfold l2. destruct (truthy (end_date a)); [apply sublist_filter|done]. }
  assert (H3 : l3 `sublist_of` l2).
  { unfold l3. destruct (limit a) as [n|]; [|done].
    destruct (n =? 0); [done|]. unfold slice_to.
    destruct (n <? 0); apply sublist_take. }
  split; [by rewrite H3, H2|]. split.
  - intros d Hd. apply (λ H, elem_of_sublist _ _ _ H H3) in Hd. split.
    + intros start Hstart. apply (λ H, elem_of_sublist _ _ _ H H2) in Hd.
      unfold l1 in Hd. rewrite Hstart in Hd.
      by apply list_elem_of_filter in Hd as [? _].
    + intros stop Hstop. unfold l2 in Hd. rewrite Hstop in Hd.
      by apply list_elem_of_filter in Hd as [? _].
  - intros n Hn Hpos. unfold l3. rewrite Hn.
    destruct (Z.eqb_spec n 0); [lia|]. unfold slice_to.
    destruct (Z.ltb_spec n 0); [lia|]. rewrite length_take. lia.
Qed.
End BatchFacts.

(** ** File names of tiles *)

Section TextFacts.
Import Text.

Lemma str_inj a b : Py.str a = Py.str b → a = b.
Proof.
  unfold Py.str. intros Heq.
  assert (Hnil : ∀ z, Z.to_int z ≠ Decimal.Pos Decimal.Nil
                      ∧ Z.to_int z ≠ Decimal.Neg Decimal.Nil).
  { intros [|p|p]; simpl; split; try discriminate;
      intros [= H]; by apply DecimalPos.Unsigned.to_uint_nonnil in H. }
  apply (f_equal NilZero.int_of_string) in Heq.
  rewrite !NilZero.isi in Heq by apply Hnil.
  injection Heq as Heq. apply (f_equal Z.of_int) in Heq.
  by rewrite !DecimalZ.of_to in Heq.
Qed.

Lemma lacks_uint c d :
  Orchestrator.digit c = None → lacks c (NilEmpty.string_of_uint d).
Proof.
  intros Hc. induction d; simpl; try done; (split; [by intros <-|done]).
Qed.

Lemma lacks_str c n :
  Orchestrator.digit c = None → c ≠ "-"%char → lacks c (Py.str n).
Proof.
  intros Hc Hdash. unfold Py.str, NilZero.string_of_int, NilZero.string_of_uint.
  destruct (Z.to_int n) as [d|d].
  - destruct d; try (by apply lacks_uint). simpl. split; [by intros <-|done].
  - split; [done|].
    destruct d; try (by apply lacks_uint). simpl. split; [by intros <-|done].
Qed.

(** Two texts that lack [c] and are followed by [c] are cut at the same
    place. *)
Lemma app_cut c s s' r r' :
  lacks c s → lacks c s' →
  s +:+ String c r = s' +:+ String c r' → s = s' ∧ r = r'.
Proof.
  revert s'. induction s as [|a s IH]; intros [|a' s']; simpl.
  - by intros _ _ [= ->].
  - intros _ [Hne _] [= <- _]. done.
  - intros [Hne _] _ [= -> _]. done.
  - intros [_ Hs] [_ Hs'] [= <- Heq]. destruct (IH s' Hs Hs' Heq) as [-> ->]. done.
Qed.
End TextFacts.

Lemma prefix_slash_cons c r r' :
  String.prefix "/" (String c r) = String.prefix "/" (String c r').
Proof.
  change (String.prefix "/" (String c r))
    with (if ascii_dec "/" c then String.prefix "" r else false).
  change (String.prefix "/" (String c r'))
    with (if ascii_dec "/" c then String.prefix "" r' else false).
  destruct (ascii_dec "/" c); [by destruct r, r'|done].
Qed.

(** X4. Tiles of different coordinates get different file names in the
    tile directory of [download_tile], and so do the cells of one grid of
    [download_region_grid]: no tile is taken for, or written over, another. *)
Theorem tile_paths_distinct :
  (∀ output_dir z x y z' x' y',
     Py.path_join output_dir (Fetcher.tile_filename z x y)
     = Py.path_join output_dir (Fetcher.tile_filename z' x' y') →
     (z, x, y) = (z', x', y'))
  ∧ (∀ output_dir layer_key date zoom_level info x y x' y',
       Py.path_join output_dir
         (Fetcher.grid_tile_filename layer_key date zoom_level x y info)
       = Py.path_join output_dir
           (Fetcher.grid_tile_filename layer_key date zoom_level x' y' info) →
       (x, y) = (x', y')).
Proof.
  assert (Hjoin : ∀ dir a b,
            String.prefix "/" a = String.prefix "/" b →
            Py.path_join dir a = Py.path_join dir b → a = b).
  { intros dir a b Hab. unfold Py.path_join. rewrite Hab.
    destruct (String.prefix "/" b); [done|].
    destruct (String.eqb dir ""); [done|].
    destruct (Py.endswith dir "/"); intros Heq; by simplify_eq. }
  assert (Hus : ∀ n, Text.lacks "_" (Py.str n)) by (intros; by apply lacks_str).
  assert (Hdot : ∀ n, Text.lacks "." (Py.str n)) by (intros; by apply lacks_str).
  split.
  - intros output_dir z x y z' x' y' Heq.
    apply Hjoin in Heq; [|done..].
    unfold Fetcher.tile_filename in Heq. simpl in Heq.
    injection Heq as Heq.
    apply (app_cut "_") in Heq as [Hz Heq]; [|done..].
    apply (app_cut "_") in Heq as [Hx Heq]; [|done..].
    apply (app_cut ".") in Heq as [Hy _]; [|done..].
    apply str_inj in Hz, Hx, Hy. by subst.
  - intros output_dir layer_key date zoom_level info x y x' y' Heq.
    assert (Hname : Fetcher.grid_tile_filename layer_key date zoom_level x y info
                    = Fetcher.grid_tile_filename layer_key date zoom_level x' y' info).
    { apply Hjoin in Heq; [done|]. unfold Fetcher.grid_tile_filename.
      destruct layer_key; [done|]. apply prefix_slash_cons. }
    unfold Fetcher.grid_tile_filename in Hname.
    apply (inj (String.app layer_key)) in Hname. simpl in Hname.
    injection Hname as Hname.
    apply (inj (String.app date)) in Hname. simpl in Hname.
    injection Hname as Hname.
    apply (inj (String.app (Py.str zoom_level))) in Hname. simpl in Hname.
    injection Hname as Hname.
    apply (app_cut "_") in Hname as [Hx Hname]; [|done..].
    injection Hname as Hname.
    apply (app_cut ".") in Hname as [Hy _]; [|done..].
    apply str_inj in Hx, Hy. by subst.
Qed.

(** ** Tile fetcher, continued *)

Section FetcherMore.
Import Sys.
Variable requests_get : string → world → http_outcome.
Variable open_wb : string → world → bool.

Lemma download_tile_cases date z x y output_dir layer w :
  let tile_path := Py.path_join output_dir (Fetcher.tile_filename z x y) in
  let run := Fetcher.download_tile requests_get open_wb date z x y output_dir layer w in
  (run.1 = (Some tile_path, true) ∧ is_Some (fs run.2 !! tile_path)
   ∨ run.1 = (None, false) ∧ fs run.2 = fs w)
  ∧ (length (filter is_get (trace run.2)) ≤ S (length (filter is_get (trace w))))%nat
  ∧ (∀ p, is_Some (fs w !! p) → is_Some (fs run.2 !! p)).
Proof.
  simpl. unfold Fetcher.download_tile, path_exists, http_get, write_file.
  set (tile_path := Py.path_join output_dir (Fetcher.tile_filename z x y)).
  destruct (bool_decide_reflect (is_Some (fs w !! tile_path))) as [Hex|Hex]; simpl.
  { split; [by left|]. split; [|done]. rewrite filter_app, length_app. simpl. lia. }
  assert (Hlen : (length (filter is_get
                    ((trace w ++ [EvExists tile_path])
                     ++ [EvGet (Fetcher.get_terra_tile_url date z x y layer None)]))
                  ≤ S (length (filter is_get (trace w))))%nat).
  { rewrite !filter_app, !length_app. simpl. lia. }
  destruct (requests_get _ _) as [status_code content|]; simpl; [|by split; [right|]].
  destruct (status_code =? 200); simpl; [|by split; [right|]].
  destruct (open_wb _ _); simpl; [|by split; [right|]].
  split; [left; split; [done|by rewrite lookup_insert_eq]|].
  split.
  - rewrite filter_app, length_app. simpl. lia.
  - intros p Hp. destruct (decide (tile_path = p)) as [->|Hne].
    + by rewrite lookup_insert_eq.
    + by rewrite lookup_insert_ne.
Qed.


(** X6. A tile that [download_tile] has fetched is not fetched again: the
    next call for the same tile gives the same answer, sends no request and
    leaves the file system as it is. *)
Theorem download_tile_rerun date z x y output_dir layer w :
  let first := Fetcher.download_tile requests_get open_wb date z x y output_dir layer w in
  let again :=
    Fetcher.download_tile requests_get open_wb date z x y output_dir layer first.2 in
  first.1.2 = true →
  again.1 = first.1
  ∧ fs again.2 = fs first.2
  ∧ filter is_get (trace again.2) = filter is_get (trace first.2).
Proof.
  destruct (download_tile_cases date z x y output_dir layer w) as (Hcase & _).
  simpl in Hcase. simpl.
  destruct (Fetcher.download_tile requests_get open_wb date z x y output_dir layer w)
    as [r w1].
  simpl in *. intros Hok. destruct Hcase as [[-> Hex]|[-> _]]; [|done].
  unfold Fetcher.download_tile, path_exists.
  rewrite bool_decide_eq_true_2 by done. simpl.
  split; [done|]. split; [done|].
  rewrite filter_app. simpl. by rewrite app_nil_r.
Qed.



End FetcherMore.

(** ** Tile grid planner, continued *)

Lemma int_scaled_zero (d : positive) (n : Z) :
  Py.int ((0 # 1) / (Z.pos d # 1) * inject_Z n)%Q = 0.
Proof. unfold Py.int. simpl. apply Z.quot_0_l. lia. Qed.

Lemma int_scaled_one (d : positive) (n : Z) :
  Py.int ((Z.pos d # 1) / (Z.pos d # 1) * inject_Z n)%Q = n.
Proof.
  unfold Py.int, Qdiv, Qmult, Qinv, inject_Z. cbn [Qnum Qden].
  rewrite !Z.mul_1_r, !Pos.mul_1_r, Pos.mul_1_l.
  rewrite (Z.mul_comm (Z.pos d) n). apply Z.quot_mul. lia.
Qed.

(** X9. For the bounding box of the whole globe, [get_tiles_for_bbox]
    returns, at every zoom level [z >= 0], the full grid of
    [calculate_world_tiles]. *)
Theorem global_bbox_is_full_coverage (z : Z) :
  0 ≤ z →
  ∃ tiles,
    Planner.calculate_world_tiles z = Ok tiles
    ∧ Planner.get_tiles_for_bbox (Planner.Bbox4 (-180) (-90) 180 90) z
      = (λ t : Planner.tile, (t.1.2, t.2)) <$> tiles.
Proof.
  intros Hz. unfold Planner.calculate_world_tiles.
  destruct (Z.ltb_spec z 0) as [?|_]; [lia|].
  eexists. split; [reflexivity|].
  rewrite fmap_grid. unfold Planner.get_tiles_for_bbox. cbn [Planner.b0 Planner.b1 Planner.b2 Planner.b3].
  assert (0 < 2 ^ z) by (apply Z.pow_pos_nonneg; lia).
  change ((-180 + 180)%Q) with (0 # 1). change ((180 + 180)%Q) with (360 # 1).
  change ((90 - 90)%Q) with (0 # 1). change ((90 - -90)%Q) with (180 # 1).
  rewrite (int_scaled_zero 360), (int_scaled_zero 180),
    (int_scaled_one 360), (int_scaled_one 180).
  rewrite Z.max_l, Z.min_l by lia.
  by replace (2 ^ z - 1 + 1) with (2 ^ z) by lia.
Qed.

Lemma global_bbox_is_full_coverage_witness :
  ∃ tiles,
    Planner.calculate_world_tiles 1 = Ok tiles
    ∧ Planner.get_tiles_for_bbox (Planner.Bbox4 (-180) (-90) 180 90) 1
      = (λ t : Planner.tile, (t.1.2, t.2)) <$> tiles.
Proof. apply global_bbox_is_full_coverage. lia. Defined.

(** X10. [_get_tile_coordinates] names the row of the north-west corner
    [max_y] and the row of the south-east corner [min_y]: it returns no tile
    when the south-east row index is the larger one, and also when the
    south-east column index is the smaller one; what it returns lies in the
    one range that is left. *)
Theorem tile_coordinates_rows deg2num (bbox : Planner.bbox_nsew) (zoom : Z) :
  let nw := deg2num (Planner.north bbox) (Planner.west bbox) zoom in
  let se := deg2num (Planner.south bbox) (Planner.east bbox) zoom in
  (nw.2 < se.2 ∨ se.1 < nw.1 → Planner._get_tile_coordinates deg2num bbox zoom = [])
  ∧ (∀ x y, (x, y) ∈ Planner._get_tile_coordinates deg2num bbox zoom →
            nw.1 ≤ x ≤ se.1 ∧ se.2 ≤ y ≤ nw.2).
Proof.
  simpl. unfold Planner._get_tile_coordinates.
  destruct (deg2num (Planner.north bbox) _ _) as [min_x max_y],
    (deg2num (Planner.south bbox) _ _) as [max_x min_y]. simpl. split.
  - intros Hempty.
    assert (Hcells : Planner.grid (λ x y, (x, y))
                       (Py.range min_x (max_x + 1)) (Py.range min_y (max_y + 1)) = []).
    { apply length_zero_iff_nil. rewrite length_grid.
      pose proof (length_range min_x (max_x + 1)).
      pose proof (length_range min_y (max_y + 1)). nia. }
    by rewrite Hcells.
  - intros x y Hmem.
    apply (λ H, elem_of_sublist _ _ _ H (sublist_take _ _)) in Hmem.
    apply elem_of_grid in Hmem as (x' & y' & [= <- <-] & Hx%elem_of_range & Hy%elem_of_range).
    lia.
Qed.

(** ** Encoder adapter, continued *)

Section EncoderMore.
Import Sys.
Variable subprocess_run : list string → world → proc_outcome * gmap string node.

(** X11. When [create_gif_from_frames] returns [True], [palette.png] is
    gone, and [ffmpeg] has been run exactly twice. *)
Theorem gif_success_removes_palette frames_dir output_path fps width w w' :
  Encoder.create_gif_from_frames subprocess_run frames_dir output_path fps width w
  = (Ok true, w') →
  fs w' !! "palette.png" = None
  ∧ length (filter is_run (trace w')) = S (S (length (filter is_run (trace w)))).
Proof.
  unfold Encoder.create_gif_from_frames, path_exists, listdir, Encoder.run_checked, run.
  destruct (bool_decide _); simpl; [|done].
  destruct (Encoder.frame_files_of _); [done|].
  destruct (subprocess_run _ _) as [[rc1|] fs1]; simpl; [|done].
  destruct (rc1 =? 0); simpl; [|done].
  destruct (subprocess_run _ _) as [[rc2|] fs2]; simpl; [|done].
  destruct (rc2 =? 0); simpl; [|done].
  destruct (bool_decide_reflect (is_Some (fs2 !! "palette.png"))) as [Hp|Hp];
    intros [= <-]; simpl; rewrite ?lookup_delete_eq, !filter_app, !length_app; simpl.
  - split; [done|lia].
  - split; [|lia]. by apply eq_None_not_Some.
Qed.

(** X12. Without a frames directory both encoders return [False] at once:
    nothing is listed and no sub-process is run.  With a directory that
    holds no [.jpg] file, [create_gif_from_frames] returns [False] without
    running [ffmpeg]. *)
Theorem encoders_need_frames frames_dir output_path fps quality width w :
  (fs w !! frames_dir = None →
   ∃ w1 w2,
     Encoder.create_video_from_frames subprocess_run frames_dir output_path fps quality w
     = (Ok false, w1)
     ∧ Encoder.create_gif_from_frames subprocess_run frames_dir output_path fps width w
       = (Ok false, w2)
     ∧ filter is_run (trace w1) = filter is_run (trace w)
     ∧ filter is_listdir (trace w1) = filter is_listdir (trace w)
     ∧ filter is_run (trace w2) = filter is_run (trace w)
     ∧ filter is_listdir (trace w2) = filter is_listdir (trace w))
  ∧ (∀ entries,
       fs w !! frames_dir = Some (Dir entries) →
       Forall (λ name, Py.endswith name ".jpg" = false) entries.*1 →
       ∃ w2,
         Encoder.create_gif_from_frames subprocess_run frames_dir output_path fps width w
         = (Ok false, w2)
         ∧ filter is_run (trace w2) = filter is_run (trace w)).
Proof.
  split.
  - intros Hnone.
    unfold Encoder.create_video_from_frames, Encoder.create_gif_from_frames, path_exists.
    rewrite bool_decide_eq_false_2 by (rewrite Hnone; by intros [? ?]). simpl.
    eexists _, _. split; [reflexivity|]. split; [reflexivity|]. simpl.
    rewrite !filter_app. simpl. by rewrite !app_nil_r.
  - intros entries Hdir Hnames.
    unfold Encoder.create_gif_from_frames, path_exists, listdir.
    rewrite bool_decide_eq_true_2 by (rewrite Hdir; eauto). simpl. rewrite Hdir.
    assert (Hnone : Encoder.frame_files_of entries.*1 = []).
    { unfold Encoder.frame_files_of, Orchestrator.sorted.
      assert (Hf : filter (λ f, Py.endswith f ".jpg" = true) entries.*1 = []).
      { induction Hnames as [|name names Hname _ IH]; [done|].
        rewrite filter_cons_False; [done|]. by rewrite Hname. }
      by rewrite Hf. }
    rewrite Hnone. eexists. split; [reflexivity|]. simpl.
    rewrite !filter_app. simpl. by rewrite !app_nil_r.
Qed.

End EncoderMore.

(** ** Mosaic compositor, continued *)

Section CompositorMore.
Import Compositor.
Variable Image_open : string → option image.
Variable resample : image → Z → Z → image.

Lemma place_world_tile_shape acc t :
  width (place_world_tile Image_open acc t).1 = width acc.1
  ∧ height (place_world_tile Image_open acc t).1 = height acc.1
  ∧ length (pixels (place_world_tile Image_open acc t).1) = length (pixels acc.1).
Proof.
  destruct t as [[[z x] y] p]. unfold place_world_tile.
  destruct (Image_open p); simpl; [|done]. by rewrite length_imap.
Qed.

Lemma foldl_place_world_shape tiles :
  ∀ acc,
    width (foldl (place_world_tile Image_open) acc tiles).1 = width acc.1
    ∧ height (foldl (place_world_tile Image_open) acc tiles).1 = height acc.1
    ∧ length (pixels (foldl (place_world_tile Image_open) acc tiles).1)
      = length (pixels acc.1).
Proof.
  induction tiles as [|t tiles IH]; intros acc; simpl; [done|].
  destruct (IH (place_world_tile Image_open acc t)) as (-> & -> & ->).
  apply place_world_tile_shape.
Qed.

Lemma foldl_place_world_decodable tiles :
  ∀ acc,
    foldl (place_world_tile Image_open) acc tiles
    = foldl (place_world_tile Image_open) acc
        (filter (λ t : Z * Z * Z * string, is_Some (Image_open t.2)) tiles).
Proof.
  induction tiles as [|t tiles IH]; intros acc; [done|].
  destruct (Image_open t.2) as [img|] eqn:Hopen.
  - rewrite filter_cons_True by (rewrite Hopen; eauto). simpl. apply IH.
  - rewrite filter_cons_False by (rewrite Hopen; by intros [? ?]). simpl.
    rewrite <- IH. f_equal. destruct t as [[[z x] y] p]. simpl in Hopen.
    unfold place_world_tile. by rewrite Hopen.
Qed.

(** X14. [stitch_world_map] returns nothing exactly for an empty list of
    tiles.  Otherwise, at a zoom level [z >= 0], the world map is a square of
    [2^z * 256] pixels a side whatever the tiles are, and tiles that cannot
    be opened are passed over: the map is the one of the tiles that can. *)
Theorem world_map_shape (tiles : list (Z * Z * Z * string)) (z : Z) :
  0 ≤ z →
  (stitch_world_map Image_open tiles z = None ↔ tiles = [])
  ∧ (∀ im, stitch_world_map Image_open tiles z = Some im →
       width im = 2 ^ z * tile_size
       ∧ height im = 2 ^ z * tile_size
       ∧ Z.of_nat (length (pixels im)) = (2 ^ z * tile_size) ^ 2
       ∧ im = (foldl (place_world_tile Image_open)
                 (new (2 ^ z * tile_size) (2 ^ z * tile_size) (0, 0, 50), 0)
                 (filter (λ t : Z * Z * Z * string, is_Some (Image_open t.2)) tiles)).1).
Proof.
  intros Hz. unfold stitch_world_map. destruct tiles as [|t tiles]; [done|].
  split; [done|]. intros im [= <-].
  set (canvas := new (2 ^ z * tile_size) (2 ^ z * tile_size) (0, 0, 50)).
  change (foldl (place_world_tile Image_open)
            (place_world_tile Image_open (canvas, 0) t) tiles)
    with (foldl (place_world_tile Image_open) (canvas, 0) (t :: tiles)).
  destruct (foldl_place_world_shape (t :: tiles) (canvas, 0)) as (Hw & Hh & Hl).
  rewrite Hw, Hh, Hl. simpl. rewrite length_replicate.
  assert (0 < 2 ^ z) by (apply Z.pow_pos_nonneg; lia).
  split; [done|]. split; [done|]. split; [unfold tile_size; nia|].
  by rewrite <- (foldl_place_world_decodable (t :: tiles)).
Qed.

Lemma py_min_le l x : x ∈ l → py_min l ≤ x.
Proof.
  destruct l as [|a l]; [by intros ?%elem_of_nil|]. simpl. intros Hx.
  destruct (foldl_extremum Z.min Z.le) with (l := l) (a := a) as (_ & Ha & Hall);
    try (intros; lia).
  apply elem_of_cons in Hx as [->|Hx]; [done|].
  by apply (proj1 (Forall_forall _ _) Hall).
Qed.

Lemma py_max_ge l x : x ∈ l → x ≤ py_max l.
Proof.
  destruct l as [|a l]; [by intros ?%elem_of_nil|]. simpl. intros Hx.
  destruct (foldl_extremum Z.max (flip Z.le)) with (l := l) (a := a) as (_ & Ha & Hall);
    try (unfold flip; intros; lia).
  apply elem_of_cons in Hx as [->|Hx]; [done|].
  by apply (proj1 (Forall_forall _ _) Hall).
Qed.

Lemma foldl_place_frame_shape min_x min_y tiles :
  ∀ frame,
    width (foldl (place_frame_tile Image_open min_x min_y) frame tiles) = width frame
    ∧ height (foldl (place_frame_tile Image_open min_x min_y) frame tiles) = height frame.
Proof.
  induction tiles as [|t tiles IH]; intros frame; [done|]. cbn [foldl].
  destruct (IH (place_frame_tile Image_open min_x min_y frame t)) as (-> & ->).
  destruct t as [[x y] d]. unfold place_frame_tile. by destruct (Image_open d).
Qed.

(** X15. The frame of [_compose_frame] spans the columns and rows of its
    tiles, and every tile is pasted inside it: at an offset that is not
    negative and leaves room for [tile_size] pixels in both directions. *)
Theorem frame_holds_every_tile (tiles : list (Z * Z * string)) :
  tiles ≠ [] →
  ∃ im,
    _compose_frame Image_open tiles = Some im
    ∧ width im = (py_max tiles.*1.*1 - py_min tiles.*1.*1 + 1) * tile_size
    ∧ height im = (py_max tiles.*1.*2 - py_min tiles.*1.*2 + 1) * tile_size
    ∧ ∀ x y data, (x, y, data) ∈ tiles →
        0 ≤ (x - py_min tiles.*1.*1) * tile_size
        ∧ (x - py_min tiles.*1.*1) * tile_size + tile_size ≤ width im
        ∧ 0 ≤ (y - py_min tiles.*1.*2) * tile_size
        ∧ (y - py_min tiles.*1.*2) * tile_size + tile_size ≤ height im.
Proof.
  intros Hne. unfold _compose_frame. destruct tiles as [|t tiles]; [done|].
  eexists. split; [reflexivity|].
  set (l := t :: tiles).
  destruct (foldl_place_frame_shape (py_min l.*1.*1) (py_min l.*1.*2) l
              (new ((py_max l.*1.*1 - py_min l.*1.*1 + 1) * tile_size)
                   ((py_max l.*1.*2 - py_min l.*1.*2 + 1) * tile_size) (0, 0, 0)))
    as (Hw & Hh).
  rewrite Hw, Hh. simpl. split; [done|]. split; [done|].
  intros x y data Hin.
  assert (Hx : x ∈ l.*1.*1).
  { apply list_elem_of_fmap. exists (x, y). split; [done|].
    apply list_elem_of_fmap. by exists (x, y, data). }
  assert (Hy : y ∈ l.*1.*2).
  { apply list_elem_of_fmap. exists (x, y). split; [done|].
    apply list_elem_of_fmap. by exists (x, y, data). }
  pose proof (py_min_le _ _ Hx). pose proof (py_max_ge _ _ Hx).
  pose proof (py_min_le _ _ Hy). pose proof (py_max_ge _ _ Hy).
  subst l. simpl in *. unfold tile_size. lia.
Qed.

Lemma stitch_loop_images width height cols (l l' : list (Z * Z * image)) :
  l.*2 = l'.*2 →
  ∀ i result,
    stitch_loop width height cols i l result = stitch_loop width height cols i l' result.
Proof.
  revert l'. induction l as [|[[tx ty] img] l IH]; intros [|[[tx' ty'] img'] l'];
    simpl; try done.
  intros [= -> Heq] i result. by apply IH.
Qed.

(** X16. [stitch_tiles] never reads [tile_x] and [tile_y]: two lists with
    the same images in the same order give the same result, whatever the
    coordinates say; a negative width or height is a [ValueError]. *)
Theorem stitch_tiles_ignores_coordinates (l l' : list (Z * Z * image)) (w h : Z) :
  (l.*2 = l'.*2 → stitch_tiles resample l w h = stitch_tiles resample l' w h)
  ∧ (w < 0 ∨ h < 0 → stitch_tiles resample l w h = Raise Py.ValueError).
Proof.
  unfold stitch_tiles. split.
  - intros Heq. destruct ((w <? 0) || (h <? 0)); [done|].
    by rewrite (stitch_loop_images w h _ l l' Heq).
  - intros [?|?]; destruct (Z.ltb_spec w 0), (Z.ltb_spec h 0); simpl; try done; lia.
Qed.
End CompositorMore.

Lemma world_map_shape_witness :
  ∃ im, Compositor.stitch_world_map (λ _, None) [(1, 0, 0, "a.jpg")] 1 = Some im
        ∧ Compositor.width im = 2 ^ 1 * Compositor.tile_size.
Proof.
  exists (Compositor.new 512 512 (0, 0, 50)). split; [reflexivity|].
  refine (proj1 (proj2 (world_map_shape (λ _, None) [(1, 0, 0, "a.jpg")] 1 _) _ _));
    [lia|reflexivity].
Defined.

Lemma frame_holds_every_tile_witness :
  ∃ im, Compositor._compose_frame (λ _, None) [(3, 4, "a"); (5, 2, "b")] = Some im
        ∧ Compositor.width im = 3 * Compositor.tile_size.
Proof.
  destruct (frame_holds_every_tile (λ _, None) [(3, 4, "a"); (5, 2, "b")] ltac:(done))
    as (im & Him & Hw & _).
  exists im. split; [exact Him|exact Hw].
Defined.


(** ** The scan of the downloads, continued *)

Section ScanFacts.
Import Sys Orchestrator Text.

Lemma scan_part_mono dates part d : d ∈ dates → d ∈ scan_part dates part.
Proof.
  intros Hd. unfold scan_part.
  destruct (_ && _); [|done]. destruct (strptime_Ymd part); [|done].
  apply elem_of_union. by right.
Qed.

Lemma scan_parts_mono parts : ∀ dates d, d ∈ dates → d ∈ foldl scan_part dates parts.
Proof.
  induction parts as [|p parts IH]; intros dates d Hd; [done|].
  simpl. apply IH. by apply scan_part_mono.
Qed.

Lemma scan_file_mono dates file d : d ∈ dates → d ∈ scan_file dates file.
Proof.
  intros Hd. unfold scan_file. destruct (_ || _); [|done]. by apply scan_parts_mono.
Qed.

Lemma scan_files_mono files : ∀ dates d, d ∈ dates → d ∈ foldl scan_file dates files.
Proof.
  induction files as [|f files IH]; intros dates d Hd; [done|].
  simpl. apply IH. by apply scan_file_mono.
Qed.

Lemma scan_parts_finds parts part :
  part ∈ parts →
  String.length part = 10%nat → count "-" part = 2 → is_Some (strptime_Ymd part) →
  ∀ dates, part ∈ foldl scan_part dates parts.
Proof.
  intros Hin Hlen Hcount [dt Hdt].
  induction parts as [|p parts IH]; intros dates; [by apply elem_of_nil in Hin|].
  simpl. apply elem_of_cons in Hin as [<-|Hin]; [|by apply IH].
  apply scan_parts_mono. unfold scan_part. rewrite Hlen, Hcount, Hdt. simpl.
  apply elem_of_union. left. by apply elem_of_singleton.
Qed.

(** X17. Every token of an image file below the downloads directory that
    has 10 characters and two dashes and that [strptime] accepts is in the
    list [find_downloaded_dates] returns. *)
Theorem find_downloaded_dates_complete terra_downloads_dir w n file part :
  fs w !! terra_downloads_dir = Some n →
  file ∈ walk_files n →
  Py.endswith file ".jpg" = true ∨ Py.endswith file ".jpeg" = true →
  part ∈ split "_" file →
  String.length part = 10%nat → count "-" part = 2 → is_Some (strptime_Ymd part) →
  part ∈ (find_downloaded_dates terra_downloads_dir w).1.
Proof.
  intros Hdir Hfile Hext Hpart Hlen Hcount Hdate.
  unfold find_downloaded_dates, path_exists. simpl.
  rewrite bool_decide_eq_true_2 by (rewrite Hdir; eauto). simpl. rewrite Hdir.
  unfold sorted. rewrite merge_sort_Permutation, elem_of_elements.
  generalize (∅ : gset string).
  induction (walk_files n) as [|f files IH]; intros dates;
    [by apply elem_of_nil in Hfile|].
  simpl. apply elem_of_cons in Hfile as [<-|Hfile]; [|by apply IH].
  apply scan_files_mono. unfold scan_file.
  assert (Hor : Py.endswith file ".jpg" || Py.endswith file ".jpeg" = true).
  { destruct Hext as [-> | ->]; [done|by apply orb_true_r]. }
  rewrite Hor. by apply scan_parts_finds.
Qed.

Lemma find_downloaded_dates_complete_witness :
  "2023-01-02" ∈ (find_downloaded_dates "downloads" Scenario.batch_world).1.
Proof.
  eapply (find_downloaded_dates_complete "downloads" Scenario.batch_world _
            "MODIS_2023-01-02_x.jpeg" "2023-01-02").
  - vm_compute. reflexivity.
  - vm_compute. set_solver.
  - right. vm_compute. reflexivity.
  - vm_compute. set_solver.
  - reflexivity.
  - reflexivity.
  - vm_compute. eauto.
Defined.

Lemma length_append s t : String.length (s +:+ t) = (String.length s + String.length t)%nat.
Proof. induction s as [|c s IH]; simpl; [done|]. by rewrite IH. Qed.

Lemma substring_all s : String.substring 0 (String.length s) s = s.
Proof. induction s as [|c s IH]; simpl; [done|]. by rewrite IH. Qed.

Lemma substring_app pre suf :
  String.substring (String.length pre) (String.length suf) (pre +:+ suf) = suf.
Proof. induction pre as [|c pre IH]; simpl; [apply substring_all|done]. Qed.

Lemma endswith_app pre suf : Py.endswith (pre +:+ suf) suf = true.
Proof.
  unfold Py.endswith. rewrite length_append.
  replace (String.length pre + String.length suf - String.length suf)%nat
    with (String.length pre) by lia.
  rewrite substring_app, String.eqb_refl, andb_true_r.
  apply Nat.leb_le. lia.
Qed.

Lemma lacks_app c s t : lacks c (s +:+ t) ↔ lacks c s ∧ lacks c t.
Proof. induction s as [|a s IH]; simpl; [tauto|]. rewrite IH. tauto. Qed.

Lemma split_lacks sep s : lacks sep s → split sep s = [s].
Proof.
  induction s as [|c s IH]; simpl; [done|]. intros [Hne Hs].
  destruct (Ascii.eqb_spec c sep); [done|]. by rewrite IH.
Qed.

(** What follows the last separator takes a suffix that has none. *)
Lemma split_app_last sep pre suf :
  lacks sep suf →
  ∃ init lastp,
    split sep pre = init ++ [lastp]
    ∧ split sep (pre +:+ suf) = init ++ [lastp +:+ suf].
Proof.
  intros Hsuf. induction pre as [|c pre (init & lastp & Hpre & Happ)]; simpl.
  - exists [], "". split; [done|]. by apply split_lacks.
  - rewrite Hpre, Happ. destruct (Ascii.eqb c sep).
    + by exists ("" :: init), lastp.
    + destruct init as [|p init]; simpl.
      * by exists [], (String c lastp).
      * by exists (String c p :: init), lastp.
Qed.

Lemma digit_lacks c n : digit c = Some n → c ≠ "."%char.
Proof. intros H ->. vm_compute in H. discriminate. Qed.

Lemma two_lacks alo ahi blo bhi s v rest :
  two alo ahi blo bhi s = Some (v, rest) → lacks "." rest → lacks "." s.
Proof.
  unfold two. destruct s as [|a [|b s]]; try done.
  destruct (digit a) as [da|] eqn:Ha; [simpl|done].
  destruct (digit b) as [db|] eqn:Hb; [simpl|done].
  destruct (_ && _); [|done]. intros [= _ <-] Hrest.
  apply digit_lacks in Ha, Hb. by repeat split.
Qed.

Lemma one_lacks lo hi s v rest :
  one lo hi s = Some (v, rest) → lacks "." rest → lacks "." s.
Proof.
  unfold one. destruct s as [|a s]; try done.
  destruct (digit a) as [da|] eqn:Ha; [simpl|done].
  destruct (_ && _); [|done]. intros [= _ <-] Hrest.
  apply digit_lacks in Ha. by split.
Qed.

Lemma match_dash_lacks s rest : match_dash s = Some rest → lacks "." rest → lacks "." s.
Proof.
  unfold match_dash. destruct s as [|c s]; [done|].
  destruct (Ascii.ascii_dec c "-") as [->|Hc].
  - intros [= <-] Hrest. by split.
  - destruct c as [[] [] [] [] [] [] [] []]; try done.
Qed.

Lemma strptime_lacks_dot s : is_Some (strptime_Ymd s) → lacks "." s.
Proof.
  intros [dt Hdt]. revert Hdt. unfold strptime_Ymd.
  destruct (match_Y s) as [[y s1]|] eqn:HY; [simpl|done].
  destruct (match_dash s1) as [s2|] eqn:H1; [simpl|done].
  destruct (match_m s2) as [[m s3]|] eqn:Hm; [simpl|done].
  destruct (match_dash s3) as [s4|] eqn:H2; [simpl|done].
  destruct (match_d s4) as [[d s5]|] eqn:Hd; [simpl|done].
  destruct (String.eqb_spec s5 "") as [->|]; [simpl|done]. intros _.
  assert (H4 : lacks "." s4).
  { revert Hd. unfold match_d, orelse.
    destruct (two 3 3 0 1 s4) as [[]|] eqn:E1;
      [intros [= -> ->]; by eapply two_lacks|].
    destruct (two 1 2 0 9 s4) as [[]|] eqn:E2;
      [intros [= -> ->]; by eapply two_lacks|].
    destruct (two 0 0 1 9 s4) as [[]|] eqn:E3;
      [intros [= -> ->]; by eapply two_lacks|].
    destruct (one 1 9 s4) as [[]|] eqn:E4;
      [intros [= -> ->]; by eapply one_lacks|].
    destruct s4 as [|c s4]; [done|].
    destruct (Ascii.ascii_dec c " ") as [->|Hc].
    - intros E5. split; [done|]. by eapply one_lacks.
    - destruct c as [[] [] [] [] [] [] [] []]; try done. }
  assert (H3 : lacks "." s3) by by eapply match_dash_lacks.
  assert (H2' : lacks "." s2).
  { revert Hm. unfold match_m, orelse.
    destruct (two 1 1 0 2 s2) as [[]|] eqn:E1;
      [intros [= -> ->]; by eapply two_lacks|].
    destruct (two 0 0 1 9 s2) as [[]|] eqn:E2;
      [intros [= -> ->]; by eapply two_lacks|].
    intros E3. by eapply one_lacks. }
  assert (H1' : lacks "." s1) by by eapply match_dash_lacks.
  revert HY. unfold match_Y. destruct s as [|a [|b [|c [|e s]]]]; try done.
  destruct (digit a) as [da|] eqn:Ha; [simpl|done].
  destruct (digit b) as [db|] eqn:Hb; [simpl|done].
  destruct (digit c) as [dc|] eqn:Hc; [simpl|done].
  destruct (digit e) as [de|] eqn:He; [simpl|done].
  intros [= _ <-]. apply digit_lacks in Ha, Hb, Hc, He. by repeat split.
Qed.

(** X18. Of an image file name only the tokens before the last underscore
    can give a date: the last token carries the extension and is never
    accepted.  A name that ends in [_2023-01-01.jpg], as in the comment of
    the source, gives no date for that day. *)
Theorem last_token_gives_no_date (stem ext : string) (dates : gset string) :
  ext ∈ [".jpg"; ".jpeg"] →
  ∃ init lastp,
    split "_" stem = init ++ [lastp]
    ∧ split "_" (stem +:+ ext) = init ++ [lastp +:+ ext]
    ∧ scan_file dates (stem +:+ ext) = foldl scan_part dates init.
Proof.
  intros Hext.
  assert (Hus : lacks "_" ext).
  { apply elem_of_cons in Hext as [->|Hext]; [by repeat split|].
    apply list_elem_of_singleton in Hext as ->. by repeat split. }
  assert (Hdot : ∀ p, ¬ lacks "." (p +:+ ext)).
  { intros p [_ Hl]%lacks_app.
    apply elem_of_cons in Hext as [->|Hext]; [by destruct Hl|].
    apply list_elem_of_singleton in Hext as ->. by destruct Hl. }
  destruct (split_app_last "_" stem ext Hus) as (init & lastp & Hstem & Hfile).
  exists init, lastp. split; [done|]. split; [done|].
  unfold scan_file.
  assert (Hor : Py.endswith (stem +:+ ext) ".jpg" || Py.endswith (stem +:+ ext) ".jpeg"
                = true).
  { apply elem_of_cons in Hext as [->|Hext]; [by rewrite endswith_app|].
    apply list_elem_of_singleton in Hext as ->.
    rewrite (endswith_app stem ".jpeg"). apply orb_true_r. }
  rewrite Hor, Hfile, foldl_app. simpl. unfold scan_part at 1.
  destruct (_ && _); [|done].
  destruct (strptime_Ymd (lastp +:+ ext)) as [dt|] eqn:Hparse; [|done].
  exfalso. apply (Hdot lastp). apply strptime_lacks_dot. eauto.
Qed.

Lemma last_token_gives_no_date_witness :
  scan_file ∅ "MODIS_Terra_CorrectedReflectance_TrueColor_2023-01-01.jpg" = ∅.
Proof.
  destruct (last_token_gives_no_date
              "MODIS_Terra_CorrectedReflectance_TrueColor_2023-01-01" ".jpg" ∅)
    as (init & lastp & Hsplit & _ & Hscan); [set_solver|].
  change ("MODIS_Terra_CorrectedReflectance_TrueColor_2023-01-01" +:+ ".jpg")
    with "MODIS_Terra_CorrectedReflectance_TrueColor_2023-01-01.jpg" in Hscan.
  rewrite Hscan.
  change (split "_" "MODIS_Terra_CorrectedReflectance_TrueColor_2023-01-01")
    with (["MODIS"; "Terra"; "CorrectedReflectance"; "TrueColor"] ++ ["2023-01-01"])
    in Hsplit.
  apply app_inj_tail in Hsplit as [<- _]. reflexivity.
Defined.
End ScanFacts.

(** ** The WMTS export *)

Section ExporterFacts.
Import Sys Exporter.

Lemma zoom_loop_range table target :
  Forall (λ e : Z * Q, 0 ≤ e.1 ≤ 5) table → 0 ≤ zoom_loop table target ≤ 5.
Proof.
  induction 1 as [|[zoom res] table Hz _ IH]; simpl; [lia|].
  destruct (Qle_bool res target); [simpl in Hz; lia|done].
Qed.

Lemma zoom_loop_mono table t1 t2 :
  (t1 <= t2)%Q →
  StronglySorted (λ a b : Z * Q, a.1 ≤ b.1) table →
  Forall (λ e : Z * Q, 0 ≤ e.1 ≤ 5) table →
  zoom_loop table t2 ≤ zoom_loop table t1.
Proof.
  intros Hle Hsorted Hrange.
  induction Hsorted as [|[zoom res] table Hsorted IH Hhd]; simpl; [lia|].
  apply Forall_cons in Hrange as [Hz Hrange]. simpl in Hz.
  destruct (Qle_bool res t1) eqn:H1.
  - apply Qle_bool_iff in H1.
    assert (H2 : Qle_bool res t2 = true) by (apply Qle_bool_iff; by apply (Qle_trans _ t1)).
    rewrite H2. lia.
  - destruct (Qle_bool res t2); [|by apply IH].
    clear IH Hsorted. induction table as [|[zoom' res'] table IH']; simpl; [lia|].
    apply Forall_cons in Hhd as [Hle' Hhd]. apply Forall_cons in Hrange as [Hz' Hrange].
    simpl in Hle', Hz'.
    destruct (Qle_bool res' t1); [lia|by apply IH'].
Qed.

Lemma optimal_zoom_cases (bbox : Planner.bbox4) (width height : Z) :
  width ≠ 0 → height ≠ 0 →
  ∃ zoom, calculate_optimal_zoom bbox width height = Ok zoom ∧ 0 ≤ zoom ≤ 5.
Proof.
  intros Hw Hh. unfold calculate_optimal_zoom.
  destruct (Z.eqb_spec width 0); [done|]. destruct (Z.eqb_spec height 0); [done|].
  eexists. split; [reflexivity|]. apply zoom_loop_range.
  unfold zoom_resolutions. repeat constructor; simpl; lia.
Qed.

(** X19. [calculate_optimal_zoom] raises [ZeroDivisionError] for a width
    or a height of 0 and otherwise returns a zoom level from 0 to 5; a
    coarser target resolution never gives a higher zoom level. *)
Theorem optimal_zoom_range (bbox : Planner.bbox4) (width height : Z) :
  (width = 0 ∨ height = 0 →
   calculate_optimal_zoom bbox width height = Raise Py.ZeroDivisionError)
  ∧ (width ≠ 0 → height ≠ 0 →
     ∃ zoom, calculate_optimal_zoom bbox width height = Ok zoom ∧ 0 ≤ zoom ≤ 5)
  ∧ (∀ t1 t2, (t1 <= t2)%Q →
       zoom_loop zoom_resolutions t2 ≤ zoom_loop zoom_resolutions t1).
Proof.
  assert (Hrange : Forall (λ e : Z * Q, 0 ≤ e.1 ≤ 5) zoom_resolutions).
  { unfold zoom_resolutions. repeat constructor; simpl; lia. }
  unfold calculate_optimal_zoom. split; [|split].
  - intros [-> | ->]; [done|]. by destruct (width =? 0).
  - intros Hw Hh.
    destruct (Z.eqb_spec width 0); [done|]. destruct (Z.eqb_spec height 0); [done|].
    eexists. split; [reflexivity|]. by apply zoom_loop_range.
  - intros t1 t2 Hle. apply zoom_loop_mono; [done| |done].
    unfold zoom_resolutions. repeat constructor; simpl; lia.
Qed.

Variable requests_get : string → world → http_outcome.
Variable open_wb : string → world → bool.
Variable Image_open : string → option Compositor.image.
Variable resample : Compositor.image → Z → Z → Compositor.image.

Lemma download_tiles_trace info date zoom tiles :
  ∀ acc w,
    let run := download_tiles requests_get Image_open info date zoom tiles acc w in
    filter is_get (trace run.2)
    = filter is_get (trace w)
      ++ ((λ c : Z * Z, EvGet (tile_url info date zoom c.1 c.2)) <$> tiles)
    ∧ fs run.2 = fs w
    ∧ ((∀ url w0 content, requests_get url w0 ≠ Response 200 content) → run.1 = acc).
Proof.
  induction tiles as [|[x y] tiles IH]; intros acc w; simpl.
  - by rewrite app_nil_r.
  - match goal with
    | |- context [download_tiles _ _ _ _ _ tiles ?a ?w1] =>
        destruct (IH a w1) as (Htr & Hfs & Hnone)
    end.
    rewrite Htr, Hfs. simpl. rewrite filter_app. simpl. rewrite <- app_assoc.
    split; [done|]. split; [done|].
    intros Hno. rewrite Hnone by done.
    destruct (requests_get _ w) as [status_code content|] eqn:Hresp; [|done].
    destruct (Z.eqb_spec status_code 200) as [->|]; [|done].
    by apply Hno in Hresp.
Qed.

Lemma get_tiles_for_bbox_bound bbox zoom :
  0 ≤ zoom →
  Z.of_nat (length (Planner.get_tiles_for_bbox bbox zoom)) ≤ (2 ^ zoom) ^ 2.
Proof.
  intros Hz. unfold Planner.get_tiles_for_bbox.
  assert (0 < 2 ^ zoom) by (apply Z.pow_pos_nonneg; lia).
  rewrite length_grid, Nat2Z.inj_mul, !length_range. nia.
Qed.

(** X20. For a known layer and a width and a height other than 0,
    [export_wmts_image] sends one request for each tile of the plan, at most
    1024 of them; when no request is answered with status 200 it returns
    [False] and writes nothing. *)
Theorem export_wmts_requests layer_key info date bbox width height output_path w :
  layers !! layer_key = Some info →
  width ≠ 0 → height ≠ 0 →
  ∃ zoom,
    calculate_optimal_zoom bbox width height = Ok zoom
    ∧ let run := export_wmts_image requests_get open_wb Image_open resample
                   layer_key date bbox width height output_path w in
      filter is_get (trace run.2)
      = filter is_get (trace w)
        ++ ((λ c : Z * Z, EvGet (tile_url info date zoom c.1 c.2))
              <$> Planner.get_tiles_for_bbox bbox zoom)
      ∧ (length (Planner.get_tiles_for_bbox bbox zoom) ≤ 1024)%nat
      ∧ ((∀ url w0 content, requests_get url w0 ≠ Response 200 content) →
         run.1 = Ok false ∧ fs run.2 = fs w).
Proof.
  intros Hl Hw Hh.
  destruct (optimal_zoom_cases bbox width height Hw Hh) as (zoom & Hzoom & Hz).
  exists zoom. split; [done|]. simpl.
  unfold export_wmts_image. rewrite Hl, Hzoom.
  destruct (download_tiles_trace info date zoom (Planner.get_tiles_for_bbox bbox zoom) [] w)
    as (Htr & Hfs & Hnone).
  destruct (download_tiles _ _ _ _ _ _ _ _) as [tile_images w1]. simpl in *.
  assert (Hbound : (length (Planner.get_tiles_for_bbox bbox zoom) ≤ 1024)%nat).
  { pose proof (get_tiles_for_bbox_bound bbox zoom (proj1 Hz)).
    assert ((2 ^ zoom) ^ 2 ≤ (2 ^ 5) ^ 2).
    { apply Z.pow_le_mono_l. split; [lia|]. apply Z.pow_le_mono_r; lia. }
    lia. }
  destruct tile_images as [|ti tile_images].
  { simpl. split; [done|]. split; [done|]. done. }
  split; [|split; [done|]].
  - destruct (Compositor.stitch_tiles _ _ _ _); simpl; [|done].
    unfold write_file. destruct (open_wb _ _); simpl; [|done].
    rewrite filter_app. simpl. by rewrite app_nil_r.
  - intros Hno. by specialize (Hnone Hno).
Qed.
End ExporterFacts.

(** ** Frame generation *)

Section IngestorFacts.
Import Sys Ingestor.
Variable requests_get : string → world → http_outcome.
Variable open_wb : string → world → bool.
Variable fput_object : string → string → world → upload_outcome.
Variable deg2num : Q → Q → Z → Z * Z.
Variable Image_open : string → option Compositor.image.
Variable nasa_gibs_url temp_dir endpoint bucket_name : string.
Variable bbox_hash : Planner.bbox_nsew → string.

Local Abbreviation gets w := (length (filter is_get (trace w))).

Lemma fetch_frame_tiles_gets layer date zoom tile_coords :
  ∀ frame_tiles w,
    gets (fetch_frame_tiles requests_get nasa_gibs_url layer date zoom
            tile_coords frame_tiles w).2
    = (gets w + length tile_coords)%nat.
Proof.
  induction tile_coords as [|[x y] tile_coords IH]; intros frame_tiles w; simpl; [lia|].
  unfold fetch_wmts_tile, http_get.
  destruct (requests_get _ _) as [status_code content|];
    [destruct (_ && _)|]; rewrite IH; simpl; rewrite filter_app, length_app; simpl; lia.
Qed.

Lemma compose_frame_file_gets tiles date bbox zoom w :
  gets (compose_frame_file open_wb Image_open temp_dir bbox_hash tiles date bbox zoom w).2
  = gets w.
Proof.
  unfold compose_frame_file. destruct (Compositor._compose_frame _ _); [|done].
  unfold write_file. destruct (open_wb _ _); simpl; [|done].
  rewrite filter_app, length_app. simpl. lia.
Qed.

Lemma frames_loop_bounds bbox layer zoom tile_coords dates :
  ∀ frame_urls w,
    let run := frames_loop requests_get open_wb fput_object Image_open
                 nasa_gibs_url temp_dir endpoint bucket_name bbox_hash
                 dates bbox layer zoom tile_coords frame_urls w in
    (gets run.2 ≤ gets w + length tile_coords * length dates)%nat
    ∧ ∀ urls, run.1 = Ok urls →
        (length urls ≤ length frame_urls + length dates)%nat
        ∧ gets run.2 = (gets w + length tile_coords * length dates)%nat.
Proof.
  induction dates as [|date dates IH]; intros frame_urls w; simpl.
  - split; [lia|]. intros urls [= <-]. lia.
  - pose proof (fetch_frame_tiles_gets layer date zoom tile_coords [] w) as Hfetch.
    destruct (fetch_frame_tiles _ _ _ _ _ _ _ _) as [frame_tiles w1]. simpl in Hfetch.
    destruct frame_tiles as [|ft frame_tiles].
    { destruct (IH frame_urls w1) as [Hg Hok]. split; [lia|].
      intros urls Hurls. destruct (Hok urls Hurls). lia. }
    pose proof (compose_frame_file_gets (ft :: frame_tiles) date bbox zoom w1) as Hcomp.
    destruct (compose_frame_file _ _ _ _ _ _ _ _ _) as [[frame_path|] w2];
      simpl in Hcomp.
    2: { destruct (IH frame_urls w2) as [Hg Hok]. split; [lia|].
         intros urls Hurls. destruct (Hok urls Hurls). lia. }
    assert (Hrm : gets (remove frame_path w2) = gets w2).
    { simpl. rewrite filter_app, length_app. simpl. lia. }
    destruct (fput_object _ _ _).
    + match goal with
      | |- context [frames_loop _ _ _ _ _ _ _ _ _ dates _ _ _ _ ?u ?w3] =>
          destruct (IH u w3) as [Hg Hok]
      end.
      split; [lia|]. intros urls Hurls. destruct (Hok urls Hurls) as [Hlen Hgets].
      split; [|lia]. destruct (String.eqb _ _); [lia|].
      rewrite length_app in Hlen. simpl in Hlen. lia.
    + destruct (IH frame_urls (remove frame_path w2)) as [Hg Hok].
      split; [lia|]. intros urls Hurls. destruct (Hok urls Hurls). lia.
    + simpl. split; [lia|]. done.
Qed.

(** X21. [generate_frames] sends at most 25 tile requests for each date
    and returns at most one frame URL for each date. *)
Theorem generate_frames_bounds (dates : list string) (bbox : Planner.bbox_nsew)
    (layer : string) (w : world) :
  let run := generate_frames requests_get open_wb fput_object deg2num Image_open
               nasa_gibs_url temp_dir endpoint bucket_name bbox_hash
               dates bbox layer w in
  (gets run.2 ≤ gets w + 25 * length dates)%nat
  ∧ (length run.1 ≤ length dates)%nat.
Proof.
  simpl. unfold generate_frames.
  destruct (frames_loop_bounds bbox layer 5
              (Planner._get_tile_coordinates deg2num bbox 5) dates [] w) as [Hg Hok].
  assert (Hcap : (length (Planner._get_tile_coordinates deg2num bbox 5) ≤ 25)%nat).
  { unfold Planner._get_tile_coordinates.
    destruct (deg2num _ _ _), (deg2num _ _ _). rewrite length_take. lia. }
  destruct (frames_loop _ _ _ _ _ _ _ _ _ _ _ _ _ _ _ _) as [[urls|e] w'];
    simpl in *.
  - destruct (Hok urls eq_refl). split; [nia|lia].
  - split; [nia|lia].
Qed.
End IngestorFacts.

(** ** Instances of the properties above *)

Lemma download_tile_rerun_witness :
  let first := Fetcher.download_tile (λ _ _, Sys.Response 200 "jpeg") (λ _ _, true)
                 "2023-01-01" 2 0 0 "tiles" None Scenario.cached_world in
  let again := Fetcher.download_tile (λ _ _, Sys.Response 200 "jpeg") (λ _ _, true)
                 "2023-01-01" 2 0 0 "tiles" None first.2 in
  first.1 = (Some "tiles/tile_2_0_0.jpg", true) ∧ again.1 = first.1.
Proof.
  split; [vm_compute; reflexivity|].
  refine (proj1 (download_tile_rerun (λ _ _, Sys.Response 200 "jpeg") (λ _ _, true)
                   "2023-01-01" 2 0 0 "tiles" None Scenario.cached_world _)).
  vm_compute. reflexivity.
Defined.


Lemma gif_success_removes_palette_witness :
  let ffmpeg := λ (cmd : list string) (w : Sys.world),
                  (Sys.Exited 0, <["palette.png" := Sys.File]> (Sys.fs w)) in
  let run := Encoder.create_gif_from_frames ffmpeg "frames" "out.gif" "2.0" 800
               Scenario.frames_world in
  run.1 = Ok true ∧ Sys.fs run.2 !! "palette.png" = None.
Proof.
  split; [vm_compute; reflexivity|].
  refine (proj1 (gif_success_removes_palette
                   (λ (cmd : list string) (w : Sys.world),
                      (Sys.Exited 0, <["palette.png" := Sys.File]> (Sys.fs w)))
                   "frames" "out.gif" "2.0" 800 Scenario.frames_world _ _)).
  vm_compute. reflexivity.
Defined.


Lemma export_wmts_requests_witness :
  ∃ zoom,
    Exporter.calculate_optimal_zoom (Planner.Bbox4 (-180) (-90) 180 90) 1920 1080 = Ok zoom
    ∧ (length (Planner.get_tiles_for_bbox (Planner.Bbox4 (-180) (-90) 180 90) zoom)
       ≤ 1024)%nat.
Proof.
  destruct (export_wmts_requests (λ _ _, Sys.RequestFailed) (λ _ _, true) (λ _, None)
              (λ im _ _, im) "terra_true_color"
              (Exporter.Layer "MODIS_Terra_CorrectedReflectance_TrueColor"
                 "Terra True Color" "250m" "jpg")
              "2023-01-01" (Planner.Bbox4 (-180) (-90) 180 90) 1920 1080 "out.jpg"
              Scenario.cached_world)
    as (zoom & Hzoom & _ & Hbound & _).
  - vm_compute. reflexivity.
  - lia.
  - lia.
  - exists zoom. split; [exact Hzoom|exact Hbound].
Defined.

Lemma stitch_world_map_permutation_witness :
  let open := λ _ : string, Some (Compositor.new 2 2 (9, 9, 9)) in
  Compositor.stitch_world_map open [(1, 0, 0, "a.jpg"); (1, 1, 0, "b.jpg")] 1
  = Compositor.stitch_world_map open [(1, 1, 0, "b.jpg"); (1, 0, 0, "a.jpg")] 1.
Proof.
  apply stitch_world_map_permutation.
  - apply Permutation_swap.
  - apply (bool_decide_unpack _). vm_compute. exact I.
  - apply Forall_cons_2; [|apply Forall_cons_2; [|apply Forall_nil_2]];
      intros img [= <-]; vm_compute; split; discriminate.
Defined.

Lemma compose_frame_permutation_witness :
  let open := λ _ : string, Some (Compositor.new 2 2 (9, 9, 9)) in
  Compositor._compose_frame open [(3, 4, "a"); (5, 2, "b")]
  = Compositor._compose_frame open [(5, 2, "b"); (3, 4, "a")].
Proof.
  apply compose_frame_permutation.
  - apply Permutation_swap.
  - apply (bool_decide_unpack _). vm_compute. exact I.
  - apply Forall_cons_2; [|apply Forall_cons_2; [|apply Forall_nil_2]];
      intros img [= <-]; vm_compute; split; discriminate.
Defined.

Lemma video_reports_missing_tool_witness :
  ∃ w',
    Encoder.create_video_from_frames Scenario.absent "frames" "out.mp4" "2.0" "medium"
      Scenario.frames_world = (Ok false, w')
    ∧ filter Sys.is_listdir (Sys.trace w') = [].
Proof.
  destruct (video_reports_missing_tool Scenario.absent "frames" "out.mp4" "2.0" "medium"
              Scenario.frames_world) as (w' & Hrun & Hlist & _).
  - vm_compute. eauto.
  - reflexivity.
  - exists w'. split; [exact Hrun|exact Hlist].
Defined.

Lemma all_existing_maps_witness :
  let st' := foldl (Orchestrator.process_date Scenario.absent Scenario.on_time
                      "python3" "scripts" Scenario.batch_args)
               (Orchestrator.State 0 0 Scenario.batch_world) ["2023-01-01"] in
  Orchestrator.successful st' = 0 + 1 ∧ Orchestrator.failed st' = 0.
Proof.
  destruct (all_existing_maps Scenario.absent Scenario.on_time "python3" "scripts"
              Scenario.batch_args ["2023-01-01"]
              (Orchestrator.State 0 0 Scenario.batch_world)) as (Hs & Hf & _).
  - intros d ->%list_elem_of_singleton. vm_compute. eauto.
  - split; [exact Hs|exact Hf].
Defined.
